(** * Horner Bible reading plan: chapter lists, daily selection, bookmark

    A shallow embedding of [horner_readings.py].  Python values are modelled
    as follows: [int] is [Z], [str] is [string] (ASCII), a list or tuple is a
    [list], an exception is a constructor of [exn] carried by [result], the
    bookmark file is a field of [Disk], and a value returned by
    [arrow.now()] is an [Arrow] record handed to the function that reads the
    clock. *)

From Stdlib Require Import ZArith List String Ascii Bool Lia.
Import ListNotations.
Open Scope string_scope.
Open Scope list_scope.
Open Scope Z_scope.

(** ** Exceptions and results *)

Inductive exn : Type :=
| ValueError (msg : string)
| ZeroDivisionError
| IndexError
| FileNotFoundError.

Inductive result (A : Type) : Type :=
| OK (a : A)
| Raise (e : exn).

Arguments OK {A} a.
Arguments Raise {A} e.

Definition bind {A B : Type} (c : result A) (k : A -> result B) : result B :=
  match c with
  | OK a => k a
  | Raise e => Raise e
  end.

Notation "x <- c ;; k" := (bind c (fun x => k))
  (at level 61, c at next level, right associativity).
Notation "' pat <- c ;; k" := (bind c (fun x => match x with pat => k end))
  (at level 61, pat pattern, c at next level, right associativity).

(** ** The Python builtins the program uses *)

Module Py.

(** [prepend c pieces] puts [c] in front of the first piece. *)
Definition prepend (c : ascii) (pieces : list string) : list string :=
  match pieces with
  | piece :: more => String c piece :: more
  | [] => [String c EmptyString]
  end.

(** [s.split(", ")]: the pieces between successive, non-overlapping
    occurrences of the separator, scanned from the left. *)
Fixpoint split_comma_space (s : string) : list string :=
  match s with
  | EmptyString => [EmptyString]
  | String c rest =>
      match rest with
      | String d rest' =>
          if (Ascii.eqb c "," && Ascii.eqb d " ")%bool
          then EmptyString :: split_comma_space rest'
          else prepend c (split_comma_space rest)
      | EmptyString => prepend c (split_comma_space rest)
      end
  end.

(** [a, b = parts]. *)
Definition unpack2 (parts : list string) : result (string * string) :=
  match parts with
  | [a; b] => OK (a, b)
  | [] | [_] => Raise (ValueError "not enough values to unpack (expected 2)")
  | _ => Raise (ValueError "too many values to unpack (expected 2)")
  end.

(** The ASCII characters [int()] skips around a literal: tab to carriage
    return, and the space. *)
Definition is_space (c : ascii) : bool :=
  let n := Z.of_N (N_of_ascii c) in
  ((9 <=? n) && (n <=? 13) || (n =? 32))%bool.

(** The ASCII characters [str.strip()] removes: those, and the four
    separators before the space. *)
Definition is_str_space (c : ascii) : bool :=
  let n := Z.of_N (N_of_ascii c) in
  ((9 <=? n) && (n <=? 13) || (28 <=? n) && (n <=? 32))%bool.

Definition digit_value (c : ascii) : option Z :=
  let n := Z.of_N (N_of_ascii c) in
  if ((48 <=? n) && (n <=? 57))%bool then Some (n - 48) else None.

Fixpoint lstrip (space : ascii -> bool) (cs : list ascii) : list ascii :=
  match cs with
  | c :: rest => if space c then lstrip space rest else cs
  | [] => []
  end.

Definition strip (space : ascii -> bool) (cs : list ascii) : list ascii :=
  rev (lstrip space (rev (lstrip space cs))).

(** Decimal digits, single underscores allowed between two digits.
    [after_digit] tells whether the previous character was a digit. *)
Fixpoint digits (acc : Z) (after_digit : bool) (cs : list ascii) : option Z :=
  match cs with
  | [] => if after_digit then Some acc else None
  | c :: rest =>
      match digit_value c with
      | Some d => digits (10 * acc + d) true rest
      | None =>
          if (Ascii.eqb c "_" && after_digit)%bool
          then digits acc false rest
          else None
      end
  end.

(** [int(s)] for a string [s], base 10. *)
Definition int (s : string) : result Z :=
  let parsed :=
    match strip is_space (list_ascii_of_string s) with
    | "+"%char :: ds => digits 0 false ds
    | "-"%char :: ds => option_map Z.opp (digits 0 false ds)
    | ds => digits 0 false ds
    end in
  match parsed with
  | Some n => OK n
  | None => Raise (ValueError "invalid literal for int() with base 10")
  end.

(** [range(start, stop)]. *)
Definition range (start stop : Z) : list Z :=
  map (fun k => start + Z.of_nat k) (seq 0 (Z.to_nat (stop - start))).

(** [len(l)]. *)
Definition len {A : Type} (l : list A) : Z := Z.of_nat (List.length l).

(** [l[i]]: a negative index counts from the end, an index out of range
    raises. *)
Definition getitem {A : Type} (l : list A) (i : Z) : result A :=
  let j := if i <? 0 then i + len l else i in
  if (0 <=? j)%Z
  then match nth_error l (Z.to_nat j) with
       | Some x => OK x
       | None => Raise IndexError
       end
  else Raise IndexError.

(** [a % b] on integers: the sign of the result follows [b], as with
    [Z.modulo]; a zero divisor raises. *)
Definition mod_ (a b : Z) : result Z :=
  if b =? 0 then Raise ZeroDivisionError else OK (a mod b).

(** The character of a decimal digit, [0 <= d < 10]. *)
Definition digit_char (d : Z) : ascii := ascii_of_N (Z.to_N (48 + d)).

(** The decimal digits of [n >= 0] in front of [acc], the last digit
    first; [fuel] bounds the number of digits. *)
Fixpoint decimal (fuel : nat) (n : Z) (acc : list ascii) : list ascii :=
  match fuel with
  | O => acc
  | S fuel' =>
      let acc' := digit_char (n mod 10) :: acc in
      if n / 10 =? 0 then acc' else decimal fuel' (n / 10) acc'
  end.

(** [str(n)] for an integer. *)
Definition str_int (n : Z) : string :=
  let magnitude := Z.abs n in
  let ds := decimal (S (Z.to_nat (Z.log2 magnitude))) magnitude [] in
  string_of_list_ascii (if n <? 0 then "-"%char :: ds else ds).

(** [s.strip()]. *)
Definition str_strip (s : string) : string :=
  string_of_list_ascii (strip is_str_space (list_ascii_of_string s)).

(** [", ".join(pieces)]. *)
Fixpoint join_comma_space (pieces : list string) : string :=
  match pieces with
  | [] => EmptyString
  | piece :: more =>
      match more with
      | [] => piece
      | _ :: _ => (piece ++ ", " ++ join_comma_space more)%string
      end
  end.

(** [", " in s]. *)
Fixpoint has_comma_space (s : string) : bool :=
  match s with
  | EmptyString => false
  | String c rest =>
      match rest with
      | String d _ =>
          (Ascii.eqb c "," && Ascii.eqb d " " || has_comma_space rest)%bool
      | EmptyString => false
      end
  end.

End Py.

(** ** BibleChapter *)

Record BibleChapter : Type := mkBibleChapter {
  book : string;
  chapter : Z
}.

(** [BibleChapter(book=..., chapter=...)].  The chapter the caller passes is
    an [int], on which [int(str(chapter).strip())] is the identity. *)
Definition BibleChapter_init (book : string) (chapter : Z) : result BibleChapter :=
  if String.eqb book ""
  then Raise (ValueError "BibleChapter() book must be specified")
  else if chapter =? -1
  then Raise (ValueError "BibleChapter() chapter must be specified")
  else OK {| book := book; chapter := chapter |}.

(** ** get_chapter_readings_from_yaml *)

(** The first two statements of the loop body: split the item into book and
    total chapters, and make the chapters an integer. *)
Definition parse_item (item : string) : result (string * Z) :=
  '(bible_book, total_chapters) <- Py.unpack2 (Py.split_comma_space item) ;;
  total_chapters <- Py.int total_chapters ;;
  OK (bible_book, total_chapters).

(** The inner loop, [for chapter in range(1, total_chapters + 1)], appending
    to [readings_list]. *)
Fixpoint append_chapters (bible_book : string) (chapters : list Z)
    (readings_list : list BibleChapter) : result (list BibleChapter) :=
  match chapters with
  | [] => OK readings_list
  | chapter :: more =>
      bc <- BibleChapter_init bible_book chapter ;;
      append_chapters bible_book more (readings_list ++ [bc])
  end.

(** The outer loop, [for item in items]. *)
Fixpoint readings_loop (items : list string)
    (readings_list : list BibleChapter) : result (list BibleChapter) :=
  match items with
  | [] => OK readings_list
  | item :: more =>
      '(bible_book, total_chapters) <- parse_item item ;;
      readings_list <-
        append_chapters bible_book (Py.range 1 (total_chapters + 1)) readings_list ;;
      readings_loop more readings_list
  end.

Definition get_chapter_readings_from_yaml (items : list string)
  : result (list BibleChapter) :=
  readings_loop items [].

(** ** The embedded configuration, as [yaml.safe_load(BIBLE_YAML)] yields it *)

Module Config.

Definition readings_start : Z := 0.
Definition readings_end : Z := 364.

Definition list_1 : list string :=
  ["Matthew, 28"; "Mark, 16"; "Luke, 24"; "John, 21"].
Definition list_2 : list string :=
  ["Genesis, 50"; "Exodus, 40"; "Leviticus, 27"; "Numbers, 36";
   "Deuteronomy, 34"].
Definition list_3 : list string :=
  ["Romans, 16"; "1 Corinthians, 16"; "2 Corinthians, 13"; "Galatians, 6";
   "Ephesians, 6"; "Philippians, 4"; "Colossians, 4"; "Hebrews, 13"].
Definition list_4 : list string :=
  ["1 Thessalonians, 5"; "2 Thessalonians, 3"; "1 Timothy, 6";
   "2 Timothy, 4"; "Titus, 3"; "Philemon, 1"; "James, 5"; "1 Peter, 5";
   "2 Peter, 3"; "1 John, 5"; "2 John, 1"; "3 John, 1"; "Jude, 1";
   "Revelation, 22"].
Definition list_5 : list string :=
  ["Job, 42"; "Ecclesiastes, 12"; "Song of Solomon, 8"].
Definition list_6 : list string := ["Psalms, 150"].
Definition list_7 : list string := ["Proverbs, 31"].
Definition list_8 : list string :=
  ["Joshua, 24"; "Judges, 21"; "Ruth, 4"; "1 Samuel, 31"; "2 Samuel, 24";
   "1 Kings, 22"; "2 Kings, 25"; "1 Chronicles, 29"; "2 Chronicles, 36";
   "Ezra, 10"; "Nehemiah, 13"; "Esther, 10"].
Definition list_9 : list string :=
  ["Isaiah, 66"; "Jeremiah, 52"; "Lamentations, 5"; "Ezekiel, 48";
   "Daniel, 12"; "Hosea, 14"; "Joel, 3"; "Amos, 9"; "Obadiah, 1";
   "Jonah, 4"; "Micah, 7"; "Nahum, 3"; "Habakkuk, 3"; "Zephaniah, 3";
   "Haggai, 2"; "Zechariah, 14"; "Malachi, 4"].
Definition list_10 : list string := ["Acts, 28"].

End Config.

Definition get_book_lists_from_yaml_config : list (list string) :=
  [Config.list_1; Config.list_2; Config.list_3; Config.list_4; Config.list_5;
   Config.list_6; Config.list_7; Config.list_8; Config.list_9; Config.list_10].

(** [build_readings()]: the ten lists are read with [lists[0]] to
    [lists[9]] and expanded in that order. *)
Definition build_readings_from (lists : list (list string))
  : result (list (list BibleChapter)) :=
  l0 <- Py.getitem lists 0 ;; readings_list_1 <- get_chapter_readings_from_yaml l0 ;;
  l1 <- Py.getitem lists 1 ;; readings_list_2 <- get_chapter_readings_from_yaml l1 ;;
  l2 <- Py.getitem lists 2 ;; readings_list_3 <- get_chapter_readings_from_yaml l2 ;;
  l3 <- Py.getitem lists 3 ;; readings_list_4 <- get_chapter_readings_from_yaml l3 ;;
  l4 <- Py.getitem lists 4 ;; readings_list_5 <- get_chapter_readings_from_yaml l4 ;;
  l5 <- Py.getitem lists 5 ;; readings_list_6 <- get_chapter_readings_from_yaml l5 ;;
  l6 <- Py.getitem lists 6 ;; readings_list_7 <- get_chapter_readings_from_yaml l6 ;;
  l7 <- Py.getitem lists 7 ;; readings_list_8 <- get_chapter_readings_from_yaml l7 ;;
  l8 <- Py.getitem lists 8 ;; readings_list_9 <- get_chapter_readings_from_yaml l8 ;;
  l9 <- Py.getitem lists 9 ;; readings_list_10 <- get_chapter_readings_from_yaml l9 ;;
  OK [readings_list_1; readings_list_2; readings_list_3; readings_list_4;
      readings_list_5; readings_list_6; readings_list_7; readings_list_8;
      readings_list_9; readings_list_10].

Definition build_readings : result (list (list BibleChapter)) :=
  build_readings_from get_book_lists_from_yaml_config.

(** ** The readings of one day *)

(** [all_chapter_lists[k][i % len(all_chapter_lists[k])]]. *)
Definition reading_of (all_chapter_lists : list (list BibleChapter)) (k i : Z)
  : result BibleChapter :=
  l <- Py.getitem all_chapter_lists k ;;
  l' <- Py.getitem all_chapter_lists k ;;
  j <- Py.mod_ i (Py.len l') ;;
  Py.getitem l j.

(** The tuple of ten readings both modes build for a day index. *)
Definition readings_for (all_chapter_lists : list (list BibleChapter)) (i : Z)
  : result (list BibleChapter) :=
  r0 <- reading_of all_chapter_lists 0 i ;;
  r1 <- reading_of all_chapter_lists 1 i ;;
  r2 <- reading_of all_chapter_lists 2 i ;;
  r3 <- reading_of all_chapter_lists 3 i ;;
  r4 <- reading_of all_chapter_lists 4 i ;;
  r5 <- reading_of all_chapter_lists 5 i ;;
  r6 <- reading_of all_chapter_lists 6 i ;;
  r7 <- reading_of all_chapter_lists 7 i ;;
  r8 <- reading_of all_chapter_lists 8 i ;;
  r9 <- reading_of all_chapter_lists 9 i ;;
  OK [r0; r1; r2; r3; r4; r5; r6; r7; r8; r9].

(** A [for] loop whose body may raise, collecting what each round prints. *)
Fixpoint for_each {A B : Type} (body : A -> result B) (l : list A)
  : result (list B) :=
  match l with
  | [] => OK []
  | x :: more =>
      y <- body x ;;
      ys <- for_each body more ;;
      OK (y :: ys)
  end.

(** ** Year mode *)

(** One printed line: the day number and the ten readings. *)
Definition year_line (all_chapter_lists : list (list BibleChapter)) (i : Z)
  : result (Z * list BibleChapter) :=
  let day := i + 1 in
  readings <- readings_for all_chapter_lists i ;;
  OK (day, readings).

Definition year_of_readings (all_chapter_lists : list (list BibleChapter))
  : result (list (Z * list BibleChapter)) :=
  for_each (year_line all_chapter_lists) (Py.range 0 365).

Definition print_year_of_readings : result (list (Z * list BibleChapter)) :=
  all_chapter_lists <- build_readings ;;
  year_of_readings all_chapter_lists.

(** ** Time, as the arrow library gives it *)

Module Arrow.

Definition usec_per_day : Z := 86400000000.

(** A local time with its zone: the calendar date as a day number, the
    microseconds since local midnight, and the offset of the zone from UTC in
    microseconds (positive east of Greenwich).  [str(now)] is its ISO text,
    date first, then [T], the time of day and the offset. *)
Record t : Type := mk {
  date : Z;
  time_of_day : Z;
  utcoffset : Z
}.

Definition wf (a : t) : Prop :=
  0 <= time_of_day a < usec_per_day /\
  - usec_per_day < utcoffset a < usec_per_day.

(** The instant on the UTC time line, in microseconds. *)
Definition instant (a : t) : Z :=
  date a * usec_per_day + time_of_day a - utcoffset a.

(** [arrow.get(d)] for the text [d] of a date alone: midnight of that date
    in UTC. *)
Definition get (d : Z) : t := mk d 0 0.

(** [a - b], a timedelta, in microseconds: zone-aware values are compared as
    instants. *)
Definition sub (a b : t) : Z := instant a - instant b.

(** [timedelta.days]: rounded towards minus infinity. *)
Definition days (td : Z) : Z := td / usec_per_day.

End Arrow.

(** ** Command line arguments *)

Module Args.

Record t : Type := mk {
  daily : bool;
  year : bool;
  translation : string;
  save_settings : bool
}.

End Args.

(** ** The bookmark dictionary and its file *)

Module Dict.

(** The value of [self.bookmark], also the content of the JSON file. *)
Record t : Type := mk {
  day_index_number : Z;
  last_updated : Arrow.t;
  translation : string
}.

End Dict.

(** [~/.horner_bible_readings.json], and every [json.dump] made to it, the
    latest first. *)
Record Disk : Type := mkDisk {
  bookmark_file : option Dict.t;
  dumps : list Dict.t
}.

Definition json_dump (bookmark : Dict.t) (disk : Disk) : Disk :=
  {| bookmark_file := Some bookmark; dumps := bookmark :: dumps disk |}.

(** ** JsonBookmark *)

Module JsonBookmark.

Record t : Type := mk {
  args : Args.t;
  bookmark : Dict.t
}.

Definition day_index_number (self : t) : Z :=
  Dict.day_index_number (bookmark self).

Definition translation (self : t) : string :=
  Dict.translation (bookmark self).

(** [create_bookmark]; [now] is what [arrow.now()] returns. *)
Definition create_bookmark (self_args : Args.t) (now : Arrow.t) (disk : Disk)
  : result Disk :=
  if String.eqb (Args.translation self_args) ""
  then Raise (ValueError
    "Cannot save translation preferences without a translation.  Use -t from the CLI")
  else
    let bookmark :=
      {| Dict.day_index_number := 0;
         Dict.last_updated := now;
         Dict.translation := Args.translation self_args |} in
    OK (json_dump bookmark disk).

(** [days], as [update_bookmark] computes it: the date part of
    [last_updated] is read back as a time, and subtracted from [now]. *)
Definition elapsed_days (now : Arrow.t) (bookmark : Dict.t) : Z :=
  let update_date := Arrow.date (Dict.last_updated bookmark) in
  Arrow.days (Arrow.sub now (Arrow.get update_date)).

(** [update_bookmark].  The script's global [args] and [self.args] are the
    one object [parse_args()] returned. *)
Definition update_bookmark (self : t) (now : Arrow.t) (disk : Disk)
  : t * Disk :=
  let days := elapsed_days now (bookmark self) in
  if (Args.save_settings (args self) || (0 <? days))%bool then
    let b := bookmark self in
    let b :=
      if 0 <? days then
        if day_index_number self <? 365
        then {| Dict.day_index_number := Dict.day_index_number b + 1;
                Dict.last_updated := Dict.last_updated b;
                Dict.translation := Dict.translation b |}
        else {| Dict.day_index_number := 0;
                Dict.last_updated := Dict.last_updated b;
                Dict.translation := Dict.translation b |}
      else b in
    let b :=
      if Args.save_settings (args self)
      then {| Dict.day_index_number := Dict.day_index_number b;
              Dict.last_updated := Dict.last_updated b;
              Dict.translation := Args.translation (args self) |}
      else b in
    let b :=
      {| Dict.day_index_number := Dict.day_index_number b;
         Dict.last_updated := now;
         Dict.translation := Dict.translation b |} in
    ({| args := args self; bookmark := b |}, json_dump b disk)
  else (self, disk).

(** [JsonBookmark(args)].  The clock is read once in [create_bookmark] and
    once in [update_bookmark]. *)
Definition init (args : Args.t) (now_create now_update : Arrow.t) (disk : Disk)
  : result (t * Disk) :=
  disk <-
    match bookmark_file disk with
    | None => create_bookmark args now_create disk
    | Some _ => OK disk
    end ;;
  match bookmark_file disk with
  | Some bookmark =>
      OK (update_bookmark {| args := args; bookmark := bookmark |} now_update disk)
  | None => Raise FileNotFoundError
  end.

End JsonBookmark.

(** ** Daily mode *)

(** What daily mode prints before it fetches the chapters. *)
Record Today : Type := mkToday {
  translation_line : string;
  today_line : list BibleChapter
}.

(** [print_todays_readings] after [build_readings()], up to the fetch of
    the chapter texts. *)
Definition todays_readings (all_chapter_lists : list (list BibleChapter))
    (args : Args.t) (now_create now_update : Arrow.t) (disk : Disk)
  : result (Today * Disk) :=
  '(bookmark, disk) <- JsonBookmark.init args now_create now_update disk ;;
  let day_index_number := JsonBookmark.day_index_number bookmark in
  readings <- readings_for all_chapter_lists day_index_number ;;
  let translation :=
    if (negb (String.eqb (Args.translation args) "") &&
        negb (String.eqb (Args.translation args)
                         (JsonBookmark.translation bookmark)))%bool
    then Args.translation args
    else JsonBookmark.translation bookmark in
  OK ({| translation_line := translation; today_line := readings |}, disk).

Definition print_todays_readings (args : Args.t)
    (now_create now_update : Arrow.t) (disk : Disk) : result (Today * Disk) :=
  all_chapter_lists <- build_readings ;;
  todays_readings all_chapter_lists args now_create now_update disk.

(** ** Runs of the program in daily mode, one after the other *)

Record Invocation : Type := mkInvocation {
  inv_args : Args.t;
  now_create : Arrow.t;
  now_update : Arrow.t
}.

Definition invoke (i : Invocation) (disk : Disk) : result Disk :=
  '(_, disk) <- JsonBookmark.init (inv_args i) (now_create i) (now_update i) disk ;;
  OK disk.

Fixpoint invocations (runs : list Invocation) (disk : Disk) : result Disk :=
  match runs with
  | [] => OK disk
  | i :: more =>
      disk <- invoke i disk ;;
      invocations more disk
  end.

(** The stored day index, when there is a bookmark file. *)
Definition stored_day_index (disk : Disk) : option Z :=
  option_map Dict.day_index_number (bookmark_file disk).

(** ** The expansion, in the words of the specification *)

(** [Reading(book, c)] for every [c] from 1 to the chapter count. *)
Definition chapters_of (p : string * Z) : list BibleChapter :=
  map (fun c => mkBibleChapter (fst p) (Z.of_nat c)) (seq 1 (Z.to_nat (snd p))).

(** Every book in input order. *)
Definition expansion (pairs : list (string * Z)) : list BibleChapter :=
  flat_map chapters_of pairs.

Definition total_chapters (pairs : list (string * Z)) : Z :=
  fold_right (fun p acc => snd p + acc) 0 pairs.

(** The (book, chapter count) pairs a list of configuration items stands
    for. *)
Definition parses_to (items : list string) (pairs : list (string * Z)) : Prop :=
  Forall2 (fun item p => parse_item item = OK p) items pairs.

(** A pair the inner loop gets through: it has a book name, or its range of
    chapters is empty. *)
Definition passes (p : string * Z) : Prop := fst p <> "" \/ snd p < 1.

(** A pair on which [BibleChapter()] raises. *)
Definition nameless (p : string * Z) : Prop := fst p = "" /\ 1 <= snd p.

(** ** The daily selection, in the words of the specification *)

(** Ten non-empty sequences. *)
Definition book_set (all_chapter_lists : list (list BibleChapter)) : Prop :=
  List.length all_chapter_lists = 10%nat /\
  Forall (fun sequence => sequence <> []) all_chapter_lists.

(** [readings] holds ten readings, and the one taken from sequence [k] is
    the element of that sequence at [i mod] its length. *)
Definition cycles_through (all_chapter_lists : list (list BibleChapter))
    (i : Z) (readings : list BibleChapter) : Prop :=
  List.length readings = 10%nat /\
  forall (k : nat) (sequence : list BibleChapter),
    nth_error all_chapter_lists k = Some sequence ->
    0 <= i mod Py.len sequence < Py.len sequence /\
    exists r,
      nth_error sequence (Z.to_nat (i mod Py.len sequence)) = Some r /\
      nth_error readings k = Some r.

(** The ten sequences of the plan, [build_readings()] evaluated. *)
Definition horner_plan : list (list BibleChapter) :=
  Eval vm_compute in
    match build_readings with
    | OK all_chapter_lists => all_chapter_lists
    | Raise _ => []
    end.

(** ** Clocks and runs used to exercise the bookmark *)

(** Noon of day [d], in a zone [offset] microseconds east of UTC. *)
Definition noon (d offset : Z) : Arrow.t :=
  Arrow.mk d 43200000000 offset.

(** [hour] o'clock on day [d], in a zone [offset_hours] east of UTC. *)
Definition oclock (d hour offset_hours : Z) : Arrow.t :=
  Arrow.mk d (hour * 3600000000) (offset_hours * 3600000000).

(** The arguments of a plain daily run: no translation, no save. *)
Definition plain_args : Args.t :=
  Args.mk false false "" false.

(** One plain run at noon UTC on each of the [n] days after day [d]. *)
Fixpoint daily_runs (d : Z) (n : nat) : list Invocation :=
  match n with
  | O => []
  | S n' =>
      mkInvocation plain_args (noon (d + 1) 0) (noon (d + 1) 0)
      :: daily_runs (d + 1) n'
  end.

(** A disk holding a bookmark with the given fields and no write yet. *)
Definition disk_with (index : Z) (updated : Arrow.t) (translation : string)
  : Disk :=
  mkDisk (Some (Dict.mk index updated translation)) [].

Definition empty_disk : Disk := mkDisk None [].

(** The calendar-day difference the specification describes. *)
Definition calendar_days (now : Arrow.t) (bookmark : Dict.t) : Z :=
  Arrow.date now - Arrow.date (Dict.last_updated bookmark).

(** ** Text of a reading and of a printed line *)

(** [BibleChapter.__str__]. *)
Definition BibleChapter_str (self : BibleChapter) : string :=
  ("<" ++ book self ++ " " ++ Py.str_int (chapter self) ++ ">")%string.

(** The text [print(day, r0, ..., r9, sep=", ")] writes, without the end of
    line. *)
Definition year_line_text (line : Z * list BibleChapter) : string :=
  Py.join_comma_space (Py.str_int (fst line) :: map BibleChapter_str (snd line)).

(** A configuration item for a book and its chapter count. *)
Definition item_of (p : string * Z) : string :=
  (fst p ++ ", " ++ Py.str_int (snd p))%string.

(** ** Period of the plan, and runs that each see a new day *)

(** The least common multiple of the lengths of the sequences. *)
Definition plan_period (all_chapter_lists : list (list BibleChapter)) : Z :=
  fold_right (fun sequence m => Z.lcm (Py.len sequence) m) 1 all_chapter_lists.

(** Each run computes positive days against the [last_updated] the run
    before it wrote ([last] for the first). *)
Fixpoint each_a_new_day (last : Arrow.t) (runs : list Invocation) : Prop :=
  match runs with
  | [] => True
  | i :: more =>
      0 < Arrow.days (Arrow.sub (now_update i) (Arrow.get (Arrow.date last))) /\
      each_a_new_day (now_update i) more
  end.

(** Ten short sequences, of one and of four chapters. *)
Definition sample_set : list (list BibleChapter) :=
  let jude := [mkBibleChapter "Jude" 1] in
  let ruth := [mkBibleChapter "Ruth" 1; mkBibleChapter "Ruth" 2;
               mkBibleChapter "Ruth" 3; mkBibleChapter "Ruth" 4] in
  [jude; ruth; jude; ruth; jude; ruth; jude; ruth; jude; ruth].

(** The lines of the year on [sample_set], [year_of_readings] evaluated. *)
Definition sample_year : list (Z * list BibleChapter) :=
  Eval vm_compute in
    match year_of_readings sample_set with
    | OK lines => lines
    | Raise _ => []
    end.

(** A reading of a configured book, within its chapter count. *)
Definition configured (items : list string) (r : BibleChapter) : Prop :=
  book r <> "" /\
  exists item n,
    In item items /\ parse_item item = OK (book r, n) /\ 1 <= chapter r <= n.

(** A text without a comma. *)
Definition no_comma (s : string) : Prop :=
  Forall (fun c => c <> ","%char) (list_ascii_of_string s).

(** The character of some decimal digit. *)
Definition is_digit_char (c : ascii) : Prop :=
  exists d, 0 <= d < 10 /\ c = Py.digit_char d.

(** [BibleChapter()] with the chapter passed through
    [int(str(chapter).strip())], as the constructor writes it. *)
Definition BibleChapter_init_as_written (book : string) (chapter : Z)
  : result BibleChapter :=
  if String.eqb book ""
  then Raise (ValueError "BibleChapter() book must be specified")
  else if chapter =? -1
  then Raise (ValueError "BibleChapter() chapter must be specified")
  else
    chapter' <- Py.int (Py.str_strip (Py.str_int chapter)) ;;
    OK {| book := book; chapter := chapter' |}.

(** The day index after an advance. *)
Definition next_day_index (i : Z) : Z := if i <? 365 then i + 1 else 0.

(** What the zone and the hour add to the calendar-day difference. *)
Definition zone_term (now : Arrow.t) : Z :=
  (Arrow.time_of_day now - Arrow.utcoffset now) / Arrow.usec_per_day.

(** * Properties *)

(** ** The chapter expander *)

Section Expander.

Lemma range_from_one (n : Z) :
  Py.range 1 (n + 1) = map Z.of_nat (seq 1 (Z.to_nat n)).
Proof.
  unfold Py.range. replace (n + 1 - 1) with n by lia.
  rewrite <- seq_shift, map_map. apply map_ext. intros k. lia.
Qed.

Lemma range_from_one_valid (n : Z) :
  Forall (fun c => c <> -1) (Py.range 1 (n + 1)).
Proof.
  rewrite range_from_one. apply Forall_forall. intros c Hc.
  apply in_map_iff in Hc. destruct Hc as [k [<- _]]. lia.
Qed.

Lemma append_chapters_ok (b : string) (cs : list Z) :
  b <> "" ->
  Forall (fun c => c <> -1) cs ->
  forall acc, append_chapters b cs acc = OK (acc ++ map (mkBibleChapter b) cs).
Proof.
  intros Hb Hcs. induction Hcs as [|c cs Hc _ IH]; intros acc; simpl.
  - now rewrite app_nil_r.
  - unfold BibleChapter_init.
    destruct (String.eqb_spec b "") as [E|_]; [contradiction|].
    destruct (Z.eqb_spec c (-1)) as [E|_]; [contradiction|].
    simpl. rewrite IH, <- app_assoc. reflexivity.
Qed.

Lemma append_chapters_empty_book (cs : list Z) (acc : list BibleChapter) :
  cs <> [] ->
  exists msg, append_chapters "" cs acc = Raise (ValueError msg).
Proof.
  destruct cs as [|c cs]; [congruence|]. intros _. simpl. eauto.
Qed.

Lemma chapters_of_range (b : string) (n : Z) :
  map (mkBibleChapter b) (Py.range 1 (n + 1)) = chapters_of (b, n).
Proof.
  rewrite range_from_one, map_map. reflexivity.
Qed.

Lemma passes_or_nameless (p : string * Z) : {passes p} + {nameless p}.
Proof.
  unfold passes, nameless.
  destruct (string_dec (fst p) "") as [E|E]; [|left; now left].
  destruct (Z_lt_dec (snd p) 1); [left; now right|right; split; [assumption|lia]].
Qed.

Lemma inner_loop_passes (p : string * Z) (acc : list BibleChapter) :
  passes p ->
  append_chapters (fst p) (Py.range 1 (snd p + 1)) acc = OK (acc ++ chapters_of p).
Proof.
  destruct p as [b n]. simpl. intros Hp.
  destruct (string_dec b "") as [E|E].
  - destruct Hp as [Hp|Hp]; [contradiction|]. simpl in Hp.
    rewrite range_from_one. unfold chapters_of. simpl.
    replace (Z.to_nat n) with 0%nat by lia. simpl. now rewrite app_nil_r.
  - rewrite append_chapters_ok by (assumption || apply range_from_one_valid).
    now rewrite chapters_of_range.
Qed.

Lemma inner_loop_nameless (p : string * Z) (acc : list BibleChapter) :
  nameless p ->
  exists msg,
    append_chapters (fst p) (Py.range 1 (snd p + 1)) acc = Raise (ValueError msg).
Proof.
  destruct p as [b n]. unfold nameless. simpl. intros [-> Hn].
  apply append_chapters_empty_book. rewrite range_from_one.
  destruct (Z.to_nat n) eqn:E; [lia|]. discriminate.
Qed.

Lemma readings_loop_passes (items : list string) (pairs : list (string * Z)) :
  parses_to items pairs ->
  Forall passes pairs ->
  forall acc, readings_loop items acc = OK (acc ++ expansion pairs).
Proof.
  induction 1 as [|item p items pairs Hp _ IH]; intros Hall acc; simpl.
  - now rewrite app_nil_r.
  - inversion Hall as [|? ? Hpass Hrest]; subst.
    rewrite Hp. destruct p as [b n]. simpl.
    pose proof (inner_loop_passes (b, n) acc Hpass) as E.
    cbn [fst snd] in E. rewrite E. simpl.
    rewrite IH by assumption. now rewrite <- app_assoc.
Qed.

Lemma readings_loop_nameless (items : list string) (pairs : list (string * Z)) :
  parses_to items pairs ->
  Exists nameless pairs ->
  forall acc, exists msg, readings_loop items acc = Raise (ValueError msg).
Proof.
  induction 1 as [|item p items pairs Hp _ IH]; intros Hex acc.
  - inversion Hex.
  - simpl. rewrite Hp. destruct p as [b n]. simpl.
    destruct (passes_or_nameless (b, n)) as [Hpass|Hbad].
    + pose proof (inner_loop_passes (b, n) acc Hpass) as E.
      cbn [fst snd] in E. rewrite E. simpl.
      apply IH. inversion Hex as [? ? Hbad|]; subst; [|assumption].
      exfalso. destruct Hbad as [Hb' Hn], Hpass as [Hb|Hlt]; simpl in *; [contradiction|lia].
    + destruct (inner_loop_nameless (b, n) acc Hbad) as [msg Hmsg].
      cbn [fst snd] in Hmsg. rewrite Hmsg. simpl. eauto.
Qed.

Lemma total_chapters_app (xs ys : list (string * Z)) :
  total_chapters (xs ++ ys) = total_chapters xs + total_chapters ys.
Proof.
  induction xs as [|x xs IH]; simpl; [reflexivity|]. rewrite IH. lia.
Qed.

Lemma expansion_length (pairs : list (string * Z)) :
  Forall (fun p => 0 <= snd p) pairs ->
  Py.len (expansion pairs) = total_chapters pairs.
Proof.
  unfold Py.len. induction 1 as [|p pairs Hp _ IH]; simpl; [reflexivity|].
  rewrite length_app, Nat2Z.inj_add, IH. unfold chapters_of.
  rewrite length_map, length_seq. lia.
Qed.

Lemma chapters_of_nth (b : string) (n k : Z) :
  0 <= k < n ->
  nth_error (chapters_of (b, n)) (Z.to_nat k) = Some (mkBibleChapter b (k + 1)).
Proof.
  intros Hk. unfold chapters_of. simpl.
  rewrite nth_error_map, nth_error_seq.
  destruct (Nat.ltb_spec (Z.to_nat k) (Z.to_nat n)) as [_|H]; [|lia].
  simpl. f_equal. f_equal. lia.
Qed.

(** C4: for items that stand for pairs with a book name and a chapter count
    of at least 1, the expander returns the readings of every book in input
    order, chapters 1 to the count: as many readings as the counts add up
    to, and reading [k] (from 0) of a book's run is chapter [k + 1] of that
    book. *)
Theorem expander_enumerates_chapters :
  forall (items : list string) (pairs : list (string * Z)),
    parses_to items pairs ->
    Forall (fun p => fst p <> "" /\ 1 <= snd p) pairs ->
    exists readings,
      get_chapter_readings_from_yaml items = OK readings /\
      readings = expansion pairs /\
      Py.len readings = total_chapters pairs /\
      forall before b n after k,
        pairs = before ++ (b, n) :: after ->
        0 <= k < n ->
        nth_error readings (Z.to_nat (total_chapters before + k))
        = Some (mkBibleChapter b (k + 1)).
Proof.
  intros items pairs Hparse Hvalid.
  assert (Hpass : Forall passes pairs).
  { eapply Forall_impl; [|exact Hvalid]. intros p [Hb _]. now left. }
  assert (Hpos : Forall (fun p => 0 <= snd p) pairs).
  { eapply Forall_impl; [|exact Hvalid]. intros p [_ Hn]. lia. }
  exists (expansion pairs). repeat split.
  - unfold get_chapter_readings_from_yaml.
    now rewrite (readings_loop_passes items pairs Hparse Hpass []).
  - now apply expansion_length.
  - intros before b n after k -> Hk.
    apply Forall_app in Hpos. destruct Hpos as [Hbefore _].
    pose proof (expansion_length before Hbefore) as Hlen. unfold Py.len in Hlen.
    unfold expansion. rewrite flat_map_app. simpl.
    fold (expansion before).
    replace (Z.to_nat (total_chapters before + k))
      with (List.length (expansion before) + Z.to_nat k)%nat by lia.
    rewrite nth_error_app2 by lia.
    replace (List.length (expansion before) + Z.to_nat k - List.length (expansion before))%nat
      with (Z.to_nat k) by lia.
    rewrite nth_error_app1.
    + now apply chapters_of_nth.
    + unfold chapters_of. rewrite length_map, length_seq. simpl. lia.
Qed.

Lemma expander_enumerates_chapters_witness :
  exists readings,
    get_chapter_readings_from_yaml Config.list_1 = OK readings /\
    readings
    = expansion [("Matthew", 28); ("Mark", 16); ("Luke", 24); ("John", 21)] /\
    Py.len readings
    = total_chapters [("Matthew", 28); ("Mark", 16); ("Luke", 24); ("John", 21)] /\
    forall before b n after k,
      [("Matthew", 28); ("Mark", 16); ("Luke", 24); ("John", 21)]
      = before ++ (b, n) :: after ->
      0 <= k < n ->
      nth_error readings (Z.to_nat (total_chapters before + k))
      = Some (mkBibleChapter b (k + 1)).
Proof.
  apply (expander_enumerates_chapters Config.list_1
           [("Matthew", 28); ("Mark", 16); ("Luke", 24); ("John", 21)]).
  - repeat (constructor; [vm_compute; reflexivity|]). constructor.
  - repeat (constructor; [split; [discriminate|simpl; lia]|]). constructor.
Defined.

(** C7, as stated, fails: an item with a chapter count below 1 raises
    nothing, the book is skipped. *)
Lemma expander_accepts_zero_chapters :
  ~ (forall (items : list string) (pairs : list (string * Z)),
       parses_to items pairs ->
       Exists (fun p => snd p < 1 \/ fst p = "") pairs ->
       exists e, get_chapter_readings_from_yaml items = Raise e).
Proof.
  intros H.
  destruct (H ["Genesis, 0"] [("Genesis", 0)]) as [e He].
  - constructor; [vm_compute; reflexivity|constructor].
  - constructor. left. simpl. lia.
  - vm_compute in He. discriminate He.
Qed.

(** C7, amended: the expander raises [ValueError], and returns no list, when
    some pair has an empty book name and a chapter count of at least 1; when
    no pair is such, it returns the expansion, to which a pair with a
    chapter count below 1 adds nothing. *)
Theorem expander_rejects_nameless_book :
  forall (items : list string) (pairs : list (string * Z)),
    parses_to items pairs ->
    (Exists nameless pairs ->
     exists msg, get_chapter_readings_from_yaml items = Raise (ValueError msg)) /\
    (Forall passes pairs ->
     get_chapter_readings_from_yaml items = OK (expansion pairs) /\
     forall p, In p pairs -> snd p < 1 -> chapters_of p = []).
Proof.
  intros items pairs Hparse. split.
  - intros Hex. now apply (readings_loop_nameless items pairs Hparse Hex []).
  - intros Hpass. split.
    + unfold get_chapter_readings_from_yaml.
      now rewrite (readings_loop_passes items pairs Hparse Hpass []).
    + intros p _ Hn. unfold chapters_of.
      replace (Z.to_nat (snd p)) with 0%nat by lia. reflexivity.
Qed.

Lemma expander_rejects_nameless_book_witness :
  (exists msg,
     get_chapter_readings_from_yaml ["Mark, 2"; ", 3"] = Raise (ValueError msg)) /\
  (get_chapter_readings_from_yaml ["Genesis, 0"; "Mark, 2"]
   = OK (expansion [("Genesis", 0); ("Mark", 2)]) /\
   forall p, In p [("Genesis", 0); ("Mark", 2)] -> snd p < 1 -> chapters_of p = []).
Proof.
  split.
  - apply (proj1 (expander_rejects_nameless_book
                    ["Mark, 2"; ", 3"] [("Mark", 2); ("", 3)]
                    ltac:(repeat (constructor; [vm_compute; reflexivity|]);
                          constructor))).
    right. left. split; [reflexivity|simpl; lia].
  - apply (proj2 (expander_rejects_nameless_book
                    ["Genesis, 0"; "Mark, 2"] [("Genesis", 0); ("Mark", 2)]
                    ltac:(repeat (constructor; [vm_compute; reflexivity|]);
                          constructor))).
    constructor; [right; simpl; lia|].
    constructor; [left; discriminate|constructor].
Defined.

End Expander.

(** ** The daily selector *)

Section Selector.

Variable all_chapter_lists : list (list BibleChapter).
Hypothesis Hset : book_set all_chapter_lists.

Lemma getitem_nth {A : Type} (l : list A) (k : Z) (x : A) :
  0 <= k ->
  nth_error l (Z.to_nat k) = Some x ->
  Py.getitem l k = OK x.
Proof.
  intros Hk Hx. unfold Py.getitem.
  destruct (Z.ltb_spec k 0) as [H|_]; [lia|].
  destruct (Z.leb_spec 0 k) as [_|H]; [|lia].
  now rewrite Hx.
Qed.

Lemma len_positive (sequence : list BibleChapter) :
  sequence <> [] -> 0 < Py.len sequence.
Proof.
  destruct sequence; [congruence|]. intros _. unfold Py.len. simpl. lia.
Qed.

Lemma sequences_nonempty (k : nat) (sequence : list BibleChapter) :
  nth_error all_chapter_lists k = Some sequence -> sequence <> [].
Proof.
  intros Hk. destruct Hset as [_ Hne].
  rewrite Forall_forall in Hne. apply Hne. eapply nth_error_In, Hk.
Qed.

Lemma reading_of_cycles (k : nat) (sequence : list BibleChapter) (i : Z) :
  nth_error all_chapter_lists k = Some sequence ->
  0 <= i mod Py.len sequence < Py.len sequence /\
  exists r,
    nth_error sequence (Z.to_nat (i mod Py.len sequence)) = Some r /\
    reading_of all_chapter_lists (Z.of_nat k) i = OK r.
Proof.
  intros Hk.
  pose proof (len_positive sequence (sequences_nonempty k sequence Hk)) as Hlen.
  pose proof (Z.mod_pos_bound i (Py.len sequence) Hlen) as Hmod.
  split; [exact Hmod|].
  destruct (nth_error sequence (Z.to_nat (i mod Py.len sequence))) as [r|] eqn:Hr.
  - exists r. split; [reflexivity|]. unfold reading_of.
    rewrite (getitem_nth all_chapter_lists (Z.of_nat k) sequence)
      by (lia || now rewrite Nat2Z.id).
    simpl. unfold Py.mod_.
    destruct (Z.eqb_spec (Py.len sequence) 0) as [E|_]; [lia|]. simpl.
    apply getitem_nth; [lia|exact Hr].
  - apply nth_error_None in Hr. unfold Py.len in *. lia.
Qed.

Lemma readings_for_cycles (i : Z) :
  exists readings,
    readings_for all_chapter_lists i = OK readings /\
    cycles_through all_chapter_lists i readings.
Proof.
  pose proof reading_of_cycles as Hsel.
  destruct Hset as [Hten _].
  destruct all_chapter_lists as [|l0 [|l1 [|l2 [|l3 [|l4 [|l5 [|l6 [|l7 [|l8 [|l9 [|]]]]]]]]]]];
    try discriminate Hten.
  destruct (Hsel 0%nat l0 i eq_refl) as [B0 [r0 [N0 R0]]].
  destruct (Hsel 1%nat l1 i eq_refl) as [B1 [r1 [N1 R1]]].
  destruct (Hsel 2%nat l2 i eq_refl) as [B2 [r2 [N2 R2]]].
  destruct (Hsel 3%nat l3 i eq_refl) as [B3 [r3 [N3 R3]]].
  destruct (Hsel 4%nat l4 i eq_refl) as [B4 [r4 [N4 R4]]].
  destruct (Hsel 5%nat l5 i eq_refl) as [B5 [r5 [N5 R5]]].
  destruct (Hsel 6%nat l6 i eq_refl) as [B6 [r6 [N6 R6]]].
  destruct (Hsel 7%nat l7 i eq_refl) as [B7 [r7 [N7 R7]]].
  destruct (Hsel 8%nat l8 i eq_refl) as [B8 [r8 [N8 R8]]].
  destruct (Hsel 9%nat l9 i eq_refl) as [B9 [r9 [N9 R9]]].
  exists [r0; r1; r2; r3; r4; r5; r6; r7; r8; r9]. split.
  - unfold readings_for.
    change 0 with (Z.of_nat 0); change 1 with (Z.of_nat 1) at 1;
      change 2 with (Z.of_nat 2); change 3 with (Z.of_nat 3);
      change 4 with (Z.of_nat 4); change 5 with (Z.of_nat 5);
      change 6 with (Z.of_nat 6); change 7 with (Z.of_nat 7);
      change 8 with (Z.of_nat 8); change 9 with (Z.of_nat 9).
    rewrite R0, R1, R2, R3, R4, R5, R6, R7, R8, R9. reflexivity.
  - split; [reflexivity|]. intros k sequence Hk.
    do 10 (destruct k as [|k];
           [simpl in Hk; injection Hk as <-; split; eauto|]).
    simpl in Hk. destruct k; discriminate Hk.
Qed.

Lemma for_each_total {A B : Type} (body : A -> result B) (l : list A) :
  (forall x, In x l -> exists y, body x = OK y) ->
  exists ys,
    for_each body l = OK ys /\
    List.length ys = List.length l /\
    forall n x, nth_error l n = Some x ->
      exists y, body x = OK y /\ nth_error ys n = Some y.
Proof.
  induction l as [|x l IH]; intros Hbody.
  - exists []. repeat split. intros [|n] x H; discriminate H.
  - destruct (Hbody x (or_introl eq_refl)) as [y Hy].
    destruct IH as [ys [Hys [Hlen Hnth]]].
    { intros x' Hx'. apply Hbody. now right. }
    exists (y :: ys). simpl. rewrite Hy. simpl. rewrite Hys. simpl.
    repeat split; [now rewrite Hlen|].
    intros [|n] x' H; simpl in H.
    + injection H as <-. eauto.
    + now apply Hnth.
Qed.

Lemma range_nth (start stop d : Z) :
  0 <= d < stop - start ->
  nth_error (Py.range start stop) (Z.to_nat d) = Some (start + d).
Proof.
  intros Hd. unfold Py.range. rewrite nth_error_map, nth_error_seq.
  destruct (Nat.ltb_spec (Z.to_nat d) (Z.to_nat (stop - start))) as [_|H]; [|lia].
  simpl. f_equal. lia.
Qed.

(** C1: on ten non-empty sequences the selection returns ten readings for
    every day index (any integer, so every non-negative one), the reading
    from sequence [k] being the element at the index modulo the length of
    that sequence; year mode prints these for the indices 0 to 364, and
    daily mode for the day index of the bookmark. *)
Theorem daily_selection_cycles :
  (forall i : Z,
     exists readings,
       readings_for all_chapter_lists i = OK readings /\
       cycles_through all_chapter_lists i readings) /\
  (exists lines,
     year_of_readings all_chapter_lists = OK lines /\
     List.length lines = 365%nat /\
     forall i : Z, 0 <= i < 365 ->
       exists readings,
         nth_error lines (Z.to_nat i) = Some (i + 1, readings) /\
         cycles_through all_chapter_lists i readings) /\
  (forall args now_create now_update disk bookmark disk',
     JsonBookmark.init args now_create now_update disk = OK (bookmark, disk') ->
     exists today,
       todays_readings all_chapter_lists args now_create now_update disk
       = OK (today, disk') /\
       cycles_through all_chapter_lists
         (JsonBookmark.day_index_number bookmark) (today_line today)).
Proof.
  split; [exact readings_for_cycles|split].
  - destruct (for_each_total (year_line all_chapter_lists) (Py.range 0 365))
      as [lines [Hlines [Hlen Hnth]]].
    { intros i _. unfold year_line.
      destruct (readings_for_cycles i) as [readings [-> _]]. simpl. eauto. }
    exists lines. split; [exact Hlines|split].
    + rewrite Hlen. unfold Py.range. now rewrite length_map, length_seq.
    + intros i Hi.
      destruct (Hnth (Z.to_nat i) i) as [[day readings] [Hline Hn]].
      { rewrite range_nth by lia. f_equal. }
      unfold year_line in Hline.
      destruct (readings_for_cycles i) as [readings' [Hr Hc]].
      rewrite Hr in Hline. simpl in Hline. injection Hline as <- <-.
      exists readings'. split; assumption.
  - intros args now_create now_update disk bookmark disk' Hinit.
    destruct (readings_for_cycles (JsonBookmark.day_index_number bookmark))
      as [readings [Hr Hc]].
    unfold todays_readings. rewrite Hinit. simpl. rewrite Hr. simpl.
    eexists. split; [reflexivity|exact Hc].
Qed.

End Selector.

Lemma horner_plan_built : build_readings = OK horner_plan.
Proof. vm_compute. reflexivity. Qed.

(** Both modes run on the plan the configuration expands to. *)
Lemma print_year_of_readings_plan :
  print_year_of_readings = year_of_readings horner_plan.
Proof.
  unfold print_year_of_readings. now rewrite horner_plan_built.
Qed.

Lemma print_todays_readings_plan
    (args : Args.t) (now_create now_update : Arrow.t) (disk : Disk) :
  print_todays_readings args now_create now_update disk
  = todays_readings horner_plan args now_create now_update disk.
Proof.
  unfold print_todays_readings. now rewrite horner_plan_built.
Qed.

Lemma horner_plan_book_set : book_set horner_plan.
Proof.
  split; [reflexivity|]. unfold horner_plan.
  repeat (constructor; [discriminate|]). constructor.
Qed.

Lemma daily_selection_cycles_witness :
  (forall i : Z,
     exists readings,
       readings_for horner_plan i = OK readings /\
       cycles_through horner_plan i readings) /\
  (exists lines,
     year_of_readings horner_plan = OK lines /\
     List.length lines = 365%nat /\
     forall i : Z, 0 <= i < 365 ->
       exists readings,
         nth_error lines (Z.to_nat i) = Some (i + 1, readings) /\
         cycles_through horner_plan i readings) /\
  (forall args now_create now_update disk bookmark disk',
     JsonBookmark.init args now_create now_update disk = OK (bookmark, disk') ->
     exists today,
       todays_readings horner_plan args now_create now_update disk
       = OK (today, disk') /\
       cycles_through horner_plan
         (JsonBookmark.day_index_number bookmark) (today_line today)).
Proof.
  apply (daily_selection_cycles horner_plan).
  split; [reflexivity|]. unfold horner_plan.
  repeat (constructor; [discriminate|]). constructor.
Defined.

(** ** The bookmark store *)

Section Bookmark.

Import JsonBookmark.

Lemma update_idle (self : t) (now : Arrow.t) (disk : Disk) :
  Args.save_settings (args self) = false ->
  elapsed_days now (bookmark self) <= 0 ->
  update_bookmark self now disk = (self, disk).
Proof.
  intros Hsave Hdays. unfold update_bookmark. rewrite Hsave.
  destruct (Z.ltb_spec 0 (elapsed_days now (bookmark self))) as [H|_]; [lia|].
  reflexivity.
Qed.

Lemma update_advances (self : t) (now : Arrow.t) (disk : Disk) :
  0 < elapsed_days now (bookmark self) ->
  day_index_number (fst (update_bookmark self now disk))
  = (if day_index_number self <? 365 then day_index_number self + 1 else 0) /\
  Dict.last_updated (bookmark (fst (update_bookmark self now disk))) = now /\
  snd (update_bookmark self now disk)
  = json_dump (bookmark (fst (update_bookmark self now disk))) disk.
Proof.
  intros Hdays. unfold update_bookmark.
  destruct (Z.ltb_spec 0 (elapsed_days now (bookmark self))) as [_|H]; [|lia].
  rewrite orb_true_r. unfold day_index_number.
  destruct (Dict.day_index_number (bookmark self) <? 365),
           (Args.save_settings (args self)); simpl; repeat split.
Qed.

(** The day index never leaves 0..365. *)
Lemma update_keeps_range (self : t) (now : Arrow.t) (disk : Disk) :
  0 <= day_index_number self <= 365 ->
  0 <= day_index_number (fst (update_bookmark self now disk)) <= 365.
Proof.
  intros Hrange. unfold update_bookmark, day_index_number in *.
  destruct (Args.save_settings (args self)),
           (0 <? elapsed_days now (bookmark self)); simpl; try assumption;
    destruct (Z.ltb_spec (Dict.day_index_number (bookmark self)) 365);
    simpl; lia.
Qed.

(** After an update the file, when it agreed with the object, still does. *)
Lemma update_stored (self : t) (now : Arrow.t) (disk : Disk) :
  stored_day_index disk = Some (day_index_number self) ->
  stored_day_index (snd (update_bookmark self now disk))
  = Some (day_index_number (fst (update_bookmark self now disk))).
Proof.
  intros Hagree. unfold update_bookmark.
  destruct (Args.save_settings (args self) || _)%bool; simpl;
    [reflexivity|exact Hagree].
Qed.

(** A run of the program keeps a stored day index within 0..365, and a
    bookmark it creates starts within it. *)
Lemma invoke_keeps_range (i : Invocation) (disk disk' : Disk) :
  (forall n, stored_day_index disk = Some n -> 0 <= n <= 365) ->
  invoke i disk = OK disk' ->
  forall n, stored_day_index disk' = Some n -> 0 <= n <= 365.
Proof.
  intros Hrange Hrun n Hn. unfold invoke, init in Hrun.
  destruct disk as [[saved|] written]; simpl in Hrun.
  - set (self := mk (inv_args i) saved) in *.
    set (disk := mkDisk (Some saved) written) in *.
    assert (Hd : disk' = snd (update_bookmark self (now_update i) disk)).
    { destruct (update_bookmark self (now_update i) disk).
      now injection Hrun as <-. }
    rewrite Hd, (update_stored self (now_update i) disk eq_refl) in Hn.
    injection Hn as <-.
    apply update_keeps_range. apply Hrange. reflexivity.
  - unfold create_bookmark in Hrun.
    destruct (String.eqb (Args.translation (inv_args i)) ""); [discriminate|].
    simpl in Hrun.
    set (created := Dict.mk 0 (now_create i) (Args.translation (inv_args i))) in *.
    set (self := mk (inv_args i) created) in *.
    set (disk := json_dump created (mkDisk None written)) in *.
    assert (Hd : disk' = snd (update_bookmark self (now_update i) disk)).
    { destruct (update_bookmark self (now_update i) disk).
      now injection Hrun as <-. }
    rewrite Hd, (update_stored self (now_update i) disk eq_refl) in Hn.
    injection Hn as <-.
    apply update_keeps_range. unfold self, created, day_index_number.
    simpl. lia.
Qed.

Lemma invocations_keep_range (runs : list Invocation) :
  forall disk disk',
    (forall n, stored_day_index disk = Some n -> 0 <= n <= 365) ->
    invocations runs disk = OK disk' ->
    forall n, stored_day_index disk' = Some n -> 0 <= n <= 365.
Proof.
  induction runs as [|i runs IH]; intros disk disk' Hrange Hrun; simpl in Hrun.
  - injection Hrun as <-. exact Hrange.
  - destruct (invoke i disk) as [disk1|e] eqn:Hi; [|discriminate].
    simpl in Hrun. eapply IH; [|exact Hrun].
    exact (invoke_keeps_range i disk disk1 Hrange Hi).
Qed.

(** In UTC the computed days are the calendar-day difference. *)
Lemma elapsed_days_utc (now : Arrow.t) (bookmark : Dict.t) :
  Arrow.wf now ->
  Arrow.utcoffset now = 0 ->
  elapsed_days now bookmark = calendar_days now bookmark.
Proof.
  intros [Htime _] Hutc.
  unfold elapsed_days, calendar_days, Arrow.days, Arrow.sub, Arrow.instant,
    Arrow.get. simpl. rewrite Hutc.
  symmetry. apply (Z.div_unique_pos _ _ _ (Arrow.time_of_day now)).
  - exact Htime.
  - unfold Arrow.usec_per_day in *. lia.
Qed.

(** C2, on the code: 365 plain runs on the 365 days after a bookmark with
    day index 0 leave the day index at 365, not 0; one more run brings it
    back to 0. *)
Theorem year_of_advances_reaches_365 :
  option_map stored_day_index
    (match invocations (daily_runs 0 365) (disk_with 0 (noon 0 0) "ESV") with
     | OK disk => Some disk
     | Raise _ => None
     end) = Some (Some 365) /\
  option_map stored_day_index
    (match invocations (daily_runs 0 366) (disk_with 0 (noon 0 0) "ESV") with
     | OK disk => Some disk
     | Raise _ => None
     end) = Some (Some 0).
Proof. split; vm_compute; reflexivity. Qed.

(** On the days the update computes: without [--save_settings] and with
    days of 0 it writes nothing and leaves the bookmark as it was; with
    positive days a day index of 0 becomes 1, in the object and in the
    file. *)
Lemma update_once_per_day :
  forall (self : t) (now : Arrow.t) (disk : Disk),
    (Args.save_settings (args self) = false ->
     elapsed_days now (bookmark self) = 0 ->
     update_bookmark self now disk = (self, disk) /\
     dumps (snd (update_bookmark self now disk)) = dumps disk /\
     bookmark_file (snd (update_bookmark self now disk)) = bookmark_file disk /\
     bookmark (fst (update_bookmark self now disk)) = bookmark self) /\
    (0 < elapsed_days now (bookmark self) ->
     day_index_number self = 0 ->
     day_index_number (fst (update_bookmark self now disk)) = 1 /\
     stored_day_index (snd (update_bookmark self now disk)) = Some 1).
Proof.
  intros self now disk. split.
  - intros Hsave Hdays.
    rewrite (update_idle self now disk Hsave) by lia. repeat split.
  - intros Hdays Hzero.
    destruct (update_advances self now disk Hdays) as [Hidx [_ Hdisk]].
    rewrite Hzero in Hidx. simpl in Hidx. split; [exact Hidx|].
    rewrite Hdisk. unfold stored_day_index. simpl. f_equal. exact Hidx.
Qed.

(** C3, on the code: six hours east of UTC and without [--save_settings],
    an update at 01:00 on the calendar day after a bookmark with day index
    0 was written at 23:00 computes no elapsed day: the day index stays 0,
    the bookmark is as it was and nothing is written. *)
Theorem later_day_east_of_utc_is_idle :
  let self := mk plain_args (Dict.mk 0 (oclock 7 23 6) "ESV") in
  let disk := disk_with 0 (oclock 7 23 6) "ESV" in
  calendar_days (oclock 8 1 6) (bookmark self) = 1 /\
  elapsed_days (oclock 8 1 6) (bookmark self) = 0 /\
  update_bookmark self (oclock 8 1 6) disk = (self, disk) /\
  day_index_number (fst (update_bookmark self (oclock 8 1 6) disk)) = 0.
Proof. repeat split. Qed.

(** C5: with no bookmark file and a translation, the store starts without
    raising and its first write to the file is the record with day index 0,
    the current time and the requested translation; the update of the same
    start then runs on that record, and when it has nothing to do the file
    holds exactly that record.  [create_bookmark], and with it the start of
    the store, raises exactly when the requested translation is empty, with
    [ValueError]. *)
Theorem bootstrap_record :
  forall (self_args : Args.t) (now_create now_update : Arrow.t) (disk : Disk),
    bookmark_file disk = None ->
    let created := Dict.mk 0 now_create (Args.translation self_args) in
    (Args.translation self_args <> "" ->
     (exists disk0,
        create_bookmark self_args now_create disk = OK disk0 /\
        bookmark_file disk0 = Some created /\
        dumps disk0 = created :: dumps disk) /\
     (exists self' disk',
        init self_args now_create now_update disk = OK (self', disk') /\
        (self', disk')
        = update_bookmark (mk self_args created) now_update
            (json_dump created disk) /\
        (dumps disk' = created :: dumps disk \/
         dumps disk' = bookmark self' :: created :: dumps disk) /\
        bookmark_file disk' = Some (bookmark self') /\
        (Args.save_settings self_args = false ->
         elapsed_days now_update created <= 0 ->
         bookmark self' = created /\
         bookmark_file disk' = Some created /\
         dumps disk' = created :: dumps disk))) /\
    ((exists msg,
        create_bookmark self_args now_create disk = Raise (ValueError msg))
     <-> Args.translation self_args = "") /\
    ((exists e, init self_args now_create now_update disk = Raise e)
     <-> Args.translation self_args = "") /\
    (Args.translation self_args = "" ->
     exists msg,
       init self_args now_create now_update disk = Raise (ValueError msg)).
Proof.
  intros self_args now_create now_update disk Hnone created.
  unfold init, create_bookmark. rewrite Hnone. fold created.
  destruct (String.eqb_spec (Args.translation self_args) "") as [E|E].
  - split; [contradiction|]. cbn [bind].
    split; [split; eauto|]. split; [split; eauto|]. eauto.
  - cbn [bind json_dump bookmark_file].
    split; [intros _; split|].
    + eexists. repeat split.
    + set (self := mk self_args created).
      set (disk0 := json_dump created disk).
      exists (fst (update_bookmark self now_update disk0)),
             (snd (update_bookmark self now_update disk0)).
      split; [now destruct (update_bookmark self now_update disk0)|].
      split; [now destruct (update_bookmark self now_update disk0)|].
      split; [|split].
      * unfold update_bookmark.
        destruct (Args.save_settings (args self) || _)%bool; cbn;
          [right|left]; reflexivity.
      * unfold update_bookmark.
        destruct (Args.save_settings (args self) || _)%bool; reflexivity.
      * intros Hsave Hdays.
        rewrite (update_idle self now_update disk0 Hsave Hdays).
        repeat split.
    + split; [split; [intros [msg H]; discriminate H|contradiction]|].
      split; [split; [|contradiction]|contradiction].
      intros [e H]. destruct (update_bookmark _ _ _). discriminate H.
Qed.

Lemma bootstrap_record_witness :
  (exists self' disk',
     init (Args.mk true false "ESV" false) (noon 7 0) (oclock 7 13 0) empty_disk
     = OK (self', disk') /\
     bookmark self' = Dict.mk 0 (noon 7 0) "ESV" /\
     bookmark_file disk' = Some (Dict.mk 0 (noon 7 0) "ESV") /\
     dumps disk' = [Dict.mk 0 (noon 7 0) "ESV"]) /\
  (exists msg,
     init plain_args (noon 7 0) (noon 7 0) empty_disk = Raise (ValueError msg)).
Proof.
  split.
  - destruct (proj1 (bootstrap_record (Args.mk true false "ESV" false)
                       (noon 7 0) (oclock 7 13 0) empty_disk eq_refl)
                    ltac:(discriminate))
      as [_ [self' [disk' [Hinit [_ [_ [_ Hidle]]]]]]].
    exists self', disk'. split; [exact Hinit|].
    apply Hidle; [reflexivity|]. vm_compute. discriminate.
  - apply (proj2 (proj2 (proj2 (bootstrap_record plain_args
                    (noon 7 0) (noon 7 0) empty_disk eq_refl)))).
    reflexivity.
Defined.

(** On the days the update computes: with [--save_settings] and days of 0
    it stores the requested translation and the current time, writes the
    record, and leaves the day index as it was. *)
Lemma forced_save_keeps_day_index :
  forall (self : t) (now : Arrow.t) (disk : Disk),
    Args.save_settings (args self) = true ->
    elapsed_days now (bookmark self) = 0 ->
    let self' := fst (update_bookmark self now disk) in
    let disk' := snd (update_bookmark self now disk) in
    translation self' = Args.translation (args self) /\
    Dict.last_updated (bookmark self') = now /\
    day_index_number self' = day_index_number self /\
    disk' = json_dump (bookmark self') disk.
Proof.
  intros self now disk Hsave Hdays. unfold update_bookmark.
  rewrite Hsave, Hdays. simpl. repeat split.
Qed.

(** C6, on the code: six hours west of UTC, an update with
    [--save_settings] at 21:00 on the calendar day of a bookmark written at
    20:00 computes one elapsed day: translation and time are stored, and
    the day index moves from 41 to 42. *)
Theorem forced_save_west_of_utc_moves_index :
  let self :=
    mk (Args.mk true false "KJV" true) (Dict.mk 41 (oclock 7 20 (-6)) "ESV") in
  let disk := disk_with 41 (oclock 7 20 (-6)) "ESV" in
  calendar_days (oclock 7 21 (-6)) (bookmark self) = 0 /\
  elapsed_days (oclock 7 21 (-6)) (bookmark self) = 1 /\
  update_bookmark self (oclock 7 21 (-6)) disk
  = (mk (args self) (Dict.mk 42 (oclock 7 21 (-6)) "KJV"),
     json_dump (Dict.mk 42 (oclock 7 21 (-6)) "KJV") disk).
Proof. repeat split. Qed.

(** C8, on the code: from no bookmark file, a first run with a translation
    and a plain run on each of the 365 following days store the day index
    365, outside 0..364. *)
Theorem stored_day_index_reaches_365 :
  option_map stored_day_index
    (match
       invocations
         (mkInvocation (Args.mk true false "ESV" false) (noon 0 0) (noon 0 0)
          :: daily_runs 0 365)
         empty_disk
     with
     | OK disk => Some disk
     | Raise _ => None
     end) = Some (Some 365).
Proof. vm_compute. reflexivity. Qed.

(** C9, on the code: six hours west of UTC, an update at 21:00 on the day
    of a bookmark written at 20:00 computes one elapsed day; six hours east,
    an update at 01:00 on the day after a bookmark written at 23:00
    computes none. *)
Theorem elapsed_days_depends_on_zone :
  (calendar_days (oclock 7 21 (-6)) (Dict.mk 0 (oclock 7 20 (-6)) "ESV") = 0 /\
   elapsed_days (oclock 7 21 (-6)) (Dict.mk 0 (oclock 7 20 (-6)) "ESV") = 1) /\
  (calendar_days (oclock 8 1 6) (Dict.mk 0 (oclock 7 23 6) "ESV") = 1 /\
   elapsed_days (oclock 8 1 6) (Dict.mk 0 (oclock 7 23 6) "ESV") = 0).
Proof. repeat split. Qed.

(** C10: with a bookmark file present, [--save_settings] and no
    translation, the store starts without raising and the stored
    translation becomes the empty string, whatever it was. *)
Theorem forced_save_stores_empty_translation :
  forall (self_args : Args.t) (now_create now_update : Arrow.t) (disk : Disk)
         (saved : Dict.t),
    bookmark_file disk = Some saved ->
    Args.save_settings self_args = true ->
    Args.translation self_args = "" ->
    exists self' disk' saved',
      init self_args now_create now_update disk = OK (self', disk') /\
      translation self' = "" /\
      bookmark_file disk' = Some saved' /\
      Dict.translation saved' = "" /\
      dumps disk' = saved' :: dumps disk.
Proof.
  intros self_args now_create now_update disk saved Hfile Hsave Hempty.
  unfold init. rewrite Hfile. simpl. rewrite Hfile.
  unfold update_bookmark. simpl. rewrite Hsave, Hempty. simpl.
  do 3 eexists. repeat split.
Qed.

Lemma forced_save_stores_empty_translation_witness :
  exists self' disk' saved',
    init (Args.mk true false "" true) (noon 7 0) (noon 7 0)
      (disk_with 41 (noon 7 0) "ESV") = OK (self', disk') /\
    translation self' = "" /\
    bookmark_file disk' = Some saved' /\
    Dict.translation saved' = "" /\
    dumps disk' = saved' :: dumps (disk_with 41 (noon 7 0) "ESV").
Proof.
  apply (forced_save_stores_empty_translation (Args.mk true false "" true)
           (noon 7 0) (noon 7 0) (disk_with 41 (noon 7 0) "ESV")
           (Dict.mk 41 (noon 7 0) "ESV"));
    reflexivity.
Defined.

End Bookmark.

(** * Further properties *)

(** ** Selection: period, empty sequences, agreement of the two modes *)

Section SelectionMore.

Lemma getitem_In {A : Type} (l : list A) (k : Z) (x : A) :
  Py.getitem l k = OK x -> In x l.
Proof.
  unfold Py.getitem.
  destruct (0 <=? (if k <? 0 then k + Py.len l else k)); [|discriminate].
  destruct (nth_error l _) eqn:E; [|discriminate].
  intros H. injection H as <-. eapply nth_error_In, E.
Qed.

Lemma reading_of_shift (all_chapter_lists : list (list BibleChapter))
    (k i m : Z) :
  (forall sequence, In sequence all_chapter_lists -> (Py.len sequence | m)) ->
  reading_of all_chapter_lists k (i + m) = reading_of all_chapter_lists k i.
Proof.
  intros Hdiv. unfold reading_of.
  destruct (Py.getitem all_chapter_lists k) as [l|e] eqn:Hl; [|reflexivity].
  simpl. unfold Py.mod_.
  destruct (Z.eqb_spec (Py.len l) 0) as [E|E]; [reflexivity|].
  destruct (Hdiv l (getitem_In _ _ _ Hl)) as [q ->].
  now rewrite Z.mod_add.
Qed.

Lemma len_divides_period (all_chapter_lists : list (list BibleChapter))
    (sequence : list BibleChapter) :
  In sequence all_chapter_lists ->
  (Py.len sequence | plan_period all_chapter_lists).
Proof.
  induction all_chapter_lists as [|l more IH]; intros Hin; [contradiction|].
  simpl. destruct Hin as [->|Hin].
  - apply Z.divide_lcm_l.
  - eapply Z.divide_trans; [apply IH, Hin|apply Z.divide_lcm_r].
Qed.

(** X1: the selection repeats after the least common multiple of the
    lengths of the sequences, whatever the sequences and the day index. *)
Theorem selection_repeats_after_period :
  forall (all_chapter_lists : list (list BibleChapter)) (i : Z),
    readings_for all_chapter_lists (i + plan_period all_chapter_lists)
    = readings_for all_chapter_lists i.
Proof.
  intros all_chapter_lists i. unfold readings_for.
  now rewrite !(reading_of_shift all_chapter_lists _ i
                  (plan_period all_chapter_lists)
                  (len_divides_period all_chapter_lists)).
Qed.

Lemma reading_of_nonempty (all_chapter_lists : list (list BibleChapter))
    (k i : Z) (sequence : list BibleChapter) :
  0 <= k ->
  nth_error all_chapter_lists (Z.to_nat k) = Some sequence ->
  sequence <> [] ->
  exists r, reading_of all_chapter_lists k i = OK r.
Proof.
  intros Hk Hnth Hne. unfold reading_of.
  rewrite (getitem_nth all_chapter_lists k sequence Hk Hnth). simpl.
  pose proof (len_positive sequence Hne) as Hlen.
  pose proof (Z.mod_pos_bound i (Py.len sequence) Hlen) as Hmod.
  unfold Py.mod_.
  destruct (Z.eqb_spec (Py.len sequence) 0) as [E|_]; [lia|]. simpl.
  destruct (nth_error sequence (Z.to_nat (i mod Py.len sequence))) as [r|] eqn:Hr.
  - exists r. apply getitem_nth; [lia|exact Hr].
  - apply nth_error_None in Hr. unfold Py.len in *. lia.
Qed.

(** The reading of sequence [k] is there when the sequence is not empty. *)
Ltac next_reading k :=
  match goal with
  | |- context [reading_of ?all k ?i] =>
      let r := fresh "r" in
      let Hr := fresh "Hr" in
      edestruct (reading_of_nonempty all k i) as [r Hr];
      [lia|reflexivity|discriminate|rewrite Hr; cbn [bind]]
  end.

(** X2: when one of the ten sequences is empty, as for a list whose books
    all have a chapter count below 1, the selection raises
    [ZeroDivisionError] for every day index. *)
Theorem empty_sequence_raises :
  forall (all_chapter_lists : list (list BibleChapter)) (i : Z),
    List.length all_chapter_lists = 10%nat ->
    Exists (fun sequence => sequence = []) all_chapter_lists ->
    readings_for all_chapter_lists i = Raise ZeroDivisionError.
Proof.
  intros all_chapter_lists i Hten Hex.
  destruct all_chapter_lists
    as [|l0 [|l1 [|l2 [|l3 [|l4 [|l5 [|l6 [|l7 [|l8 [|l9 [|]]]]]]]]]]];
    try discriminate Hten.
  unfold readings_for.
  destruct l0 as [|x0 l0]; [reflexivity|].
  next_reading 0.
  destruct l1 as [|x1 l1]; [reflexivity|].
  next_reading 1.
  destruct l2 as [|x2 l2]; [reflexivity|].
  next_reading 2.
  destruct l3 as [|x3 l3]; [reflexivity|].
  next_reading 3.
  destruct l4 as [|x4 l4]; [reflexivity|].
  next_reading 4.
  destruct l5 as [|x5 l5]; [reflexivity|].
  next_reading 5.
  destruct l6 as [|x6 l6]; [reflexivity|].
  next_reading 6.
  destruct l7 as [|x7 l7]; [reflexivity|].
  next_reading 7.
  destruct l8 as [|x8 l8]; [reflexivity|].
  next_reading 8.
  destruct l9 as [|x9 l9]; [reflexivity|].
  exfalso.
  repeat (inversion Hex as [? ? Hempty|? ? Hex']; subst;
          [discriminate Hempty|clear Hex; rename Hex' into Hex]).
  inversion Hex.
Qed.

Lemma empty_sequence_raises_witness :
  readings_for
    [[mkBibleChapter "Jude" 1]; []; [mkBibleChapter "Jude" 1];
     [mkBibleChapter "Jude" 1]; [mkBibleChapter "Jude" 1];
     [mkBibleChapter "Jude" 1]; [mkBibleChapter "Jude" 1];
     [mkBibleChapter "Jude" 1]; [mkBibleChapter "Jude" 1];
     [mkBibleChapter "Jude" 1]] 7
  = Raise ZeroDivisionError.
Proof.
  apply (empty_sequence_raises _ 7); [reflexivity|].
  right. left. reflexivity.
Defined.

Lemma for_each_nth {A B : Type} (body : A -> result B) (l : list A) :
  forall ys, for_each body l = OK ys ->
  forall n x, nth_error l n = Some x ->
    exists y, body x = OK y /\ nth_error ys n = Some y.
Proof.
  induction l as [|a l IH]; intros ys Hys n x Hn.
  - destruct n; discriminate Hn.
  - simpl in Hys. destruct (body a) as [y|e] eqn:Hy; [|discriminate].
    simpl in Hys. destruct (for_each body l) as [ys'|e] eqn:Hl; [|discriminate].
    simpl in Hys. injection Hys as <-.
    destruct n as [|n]; simpl in Hn.
    + injection Hn as <-. eauto.
    + exact (IH ys' eq_refl n x Hn).
Qed.

(** X3: what daily mode selects for a day index below 365 is what year
    mode prints on the line of that index, under the day number one
    above it. *)
Theorem today_is_a_line_of_the_year :
  forall all_chapter_lists lines args now_create now_update disk bookmark disk',
    year_of_readings all_chapter_lists = OK lines ->
    JsonBookmark.init args now_create now_update disk = OK (bookmark, disk') ->
    0 <= JsonBookmark.day_index_number bookmark < 365 ->
    exists today,
      todays_readings all_chapter_lists args now_create now_update disk
      = OK (today, disk') /\
      nth_error lines (Z.to_nat (JsonBookmark.day_index_number bookmark))
      = Some (JsonBookmark.day_index_number bookmark + 1, today_line today).
Proof.
  intros all_chapter_lists lines args now_create now_update disk bookmark disk'
         Hyear Hinit Hidx.
  set (i := JsonBookmark.day_index_number bookmark) in *.
  destruct (for_each_nth _ _ lines Hyear (Z.to_nat i) i) as [[day rs] [Hline Hn]].
  { rewrite range_nth by lia. f_equal. }
  unfold year_line in Hline.
  destruct (readings_for all_chapter_lists i) as [readings|e] eqn:Hr;
    [|discriminate].
  simpl in Hline. injection Hline as <- <-.
  unfold todays_readings. rewrite Hinit. simpl. fold i. rewrite Hr. simpl.
  eexists. split; [reflexivity|exact Hn].
Qed.

Lemma today_is_a_line_of_the_year_witness :
  exists today,
    todays_readings sample_set plain_args (noon 8 0) (noon 8 0)
      (disk_with 41 (noon 7 0) "ESV")
    = OK (today, json_dump (Dict.mk 42 (noon 8 0) "ESV")
                           (disk_with 41 (noon 7 0) "ESV")) /\
    nth_error sample_year (Z.to_nat 42) = Some (42 + 1, today_line today).
Proof.
  apply (today_is_a_line_of_the_year sample_set sample_year plain_args
           (noon 8 0) (noon 8 0) (disk_with 41 (noon 7 0) "ESV")
           (JsonBookmark.mk plain_args (Dict.mk 42 (noon 8 0) "ESV"))
           (json_dump (Dict.mk 42 (noon 8 0) "ESV")
                      (disk_with 41 (noon 7 0) "ESV"))).
  - vm_compute. reflexivity.
  - reflexivity.
  - unfold JsonBookmark.day_index_number. simpl. lia.
Defined.

End SelectionMore.

(** ** Expander: concatenation, and where the readings come from *)

Section ExpanderMore.

Lemma append_chapters_from_empty (b : string) (cs : list Z) :
  forall acc,
    append_chapters b cs acc
    = (r <- append_chapters b cs [] ;; OK (acc ++ r)).
Proof.
  induction cs as [|c cs IH]; intros acc; simpl.
  - now rewrite app_nil_r.
  - destruct (BibleChapter_init b c) as [bc|e]; simpl; [|reflexivity].
    rewrite (IH (acc ++ [bc])), (IH [bc]).
    destruct (append_chapters b cs []) as [r|e]; simpl; [|reflexivity].
    now rewrite <- app_assoc.
Qed.

Lemma readings_loop_from_empty (items : list string) :
  forall acc,
    readings_loop items acc
    = (r <- readings_loop items [] ;; OK (acc ++ r)).
Proof.
  induction items as [|item items IH]; intros acc; simpl.
  - now rewrite app_nil_r.
  - destruct (parse_item item) as [[b n]|e]; simpl; [|reflexivity].
    rewrite (append_chapters_from_empty b _ acc).
    destruct (append_chapters b (Py.range 1 (n + 1)) []) as [r|e]; simpl;
      [|reflexivity].
    rewrite (IH (acc ++ r)), (IH r).
    destruct (readings_loop items []) as [r'|e]; simpl; [|reflexivity].
    now rewrite <- app_assoc.
Qed.

Lemma readings_loop_app (xs ys : list string) :
  forall acc,
    readings_loop (xs ++ ys) acc
    = (r <- readings_loop xs acc ;; readings_loop ys r).
Proof.
  induction xs as [|item xs IH]; intros acc; simpl; [reflexivity|].
  destruct (parse_item item) as [[b n]|e]; simpl; [|reflexivity].
  destruct (append_chapters b (Py.range 1 (n + 1)) acc) as [r|e]; simpl;
    [apply IH|reflexivity].
Qed.

(** X4: the readings of two lists put end to end are the readings of the
    first followed by those of the second, and an error in either one is
    the error of the whole, the first list's first. *)
Theorem expander_of_concatenation :
  forall xs ys : list string,
    get_chapter_readings_from_yaml (xs ++ ys)
    = (r1 <- get_chapter_readings_from_yaml xs ;;
       r2 <- get_chapter_readings_from_yaml ys ;;
       OK (r1 ++ r2)).
Proof.
  intros xs ys. unfold get_chapter_readings_from_yaml.
  rewrite readings_loop_app.
  destruct (readings_loop xs []) as [r1|e]; simpl; [|reflexivity].
  apply readings_loop_from_empty.
Qed.

Lemma range_from_one_bounds (n c : Z) :
  In c (Py.range 1 (n + 1)) -> 1 <= c <= n.
Proof.
  rewrite range_from_one. intros Hc.
  apply in_map_iff in Hc. destruct Hc as [k [<- Hk]].
  apply in_seq in Hk. lia.
Qed.

Lemma append_chapters_keeps (P : BibleChapter -> Prop) (b : string)
    (cs : list Z) :
  (forall c, In c cs -> b <> "" -> P (mkBibleChapter b c)) ->
  forall acc rs,
    Forall P acc ->
    append_chapters b cs acc = OK rs ->
    Forall P rs.
Proof.
  induction cs as [|c cs IH]; intros Hcs acc rs Hacc Hrs; simpl in Hrs.
  - now injection Hrs as <-.
  - unfold BibleChapter_init in Hrs.
    destruct (String.eqb_spec b "") as [E|E]; [discriminate|].
    destruct (c =? -1); [discriminate|]. simpl in Hrs.
    apply (IH (fun c' H => Hcs c' (or_intror H)) _ rs) in Hrs; [exact Hrs|].
    apply Forall_app. split; [exact Hacc|].
    constructor; [|constructor]. apply Hcs; [now left|exact E].
Qed.

Lemma readings_loop_keeps (items suffix : list string) :
  incl suffix items ->
  forall acc rs,
    Forall (configured items) acc ->
    readings_loop suffix acc = OK rs ->
    Forall (configured items) rs.
Proof.
  induction suffix as [|item suffix IH]; intros Hincl acc rs Hacc Hrs;
    simpl in Hrs.
  - now injection Hrs as <-.
  - destruct (parse_item item) as [[b n]|e] eqn:Hitem; [|discriminate].
    simpl in Hrs.
    destruct (append_chapters b (Py.range 1 (n + 1)) acc) as [acc'|e] eqn:Hin;
      [|discriminate].
    simpl in Hrs.
    apply (IH (fun x H => Hincl x (or_intror H)) acc' rs); [|exact Hrs].
    apply (append_chapters_keeps (configured items) b (Py.range 1 (n + 1)))
      with (acc := acc); [|exact Hacc|exact Hin].
    intros c Hc Hb. split; [exact Hb|].
    exists item, n. simpl. repeat split.
    + apply Hincl. now left.
    + exact Hitem.
    + apply (range_from_one_bounds n c Hc).
    + apply (range_from_one_bounds n c Hc).
Qed.

(** X5: every reading the expander returns has a book name, and is a
    chapter of a book some item configures, between 1 and that item's
    chapter count. *)
Theorem readings_are_configured :
  forall (items : list string) (readings : list BibleChapter),
    get_chapter_readings_from_yaml items = OK readings ->
    Forall (configured items) readings.
Proof.
  intros items readings Hrs.
  apply (readings_loop_keeps items items (incl_refl _) [] readings);
    [constructor|exact Hrs].
Qed.

Lemma readings_are_configured_witness :
  Forall (configured ["Jude, 1"; "Ruth, 2"])
    [mkBibleChapter "Jude" 1; mkBibleChapter "Ruth" 1; mkBibleChapter "Ruth" 2].
Proof.
  apply (readings_are_configured ["Jude, 1"; "Ruth, 2"]).
  vm_compute. reflexivity.
Defined.

End ExpanderMore.

(** ** Text: numbers, items and printed lines *)

Section Text.

Ltac each_digit d H :=
  assert (d = 0 \/ d = 1 \/ d = 2 \/ d = 3 \/ d = 4 \/
          d = 5 \/ d = 6 \/ d = 7 \/ d = 8 \/ d = 9) as H by lia;
  repeat (destruct H as [H|H]); subst d.

Lemma digit_value_char (d : Z) :
  0 <= d < 10 -> Py.digit_value (Py.digit_char d) = Some d.
Proof. intros Hd. each_digit d H; reflexivity. Qed.

Lemma digit_char_plain (c : ascii) :
  is_digit_char c ->
  Py.is_space c = false /\ c <> ","%char /\ c <> "+"%char /\ c <> "-"%char.
Proof.
  intros [d [Hd ->]]. each_digit d H; repeat split; discriminate.
Qed.

Lemma digit_char_kept (c : ascii) :
  is_digit_char c -> Py.is_str_space c = false.
Proof.
  intros [d [Hd ->]]. each_digit d H; reflexivity.
Qed.

Lemma decimal_acc (fuel : nat) :
  forall n acc, Py.decimal fuel n acc = Py.decimal fuel n [] ++ acc.
Proof.
  induction fuel as [|fuel IH]; intros n acc; simpl; [reflexivity|].
  destruct (n / 10 =? 0); [reflexivity|].
  rewrite (IH _ (_ :: acc)), (IH _ [_]), <- app_assoc. reflexivity.
Qed.

Lemma decimal_chars (fuel : nat) :
  forall n, Forall is_digit_char (Py.decimal fuel n []).
Proof.
  induction fuel as [|fuel IH]; intros n; simpl; [constructor|].
  assert (Hd : is_digit_char (Py.digit_char (n mod 10))).
  { exists (n mod 10). split; [apply Z.mod_pos_bound; lia|reflexivity]. }
  destruct (n / 10 =? 0); [now constructor|].
  rewrite decimal_acc. apply Forall_app. split; [apply IH|now constructor].
Qed.

Lemma decimal_head (fuel : nat) (n : Z) :
  exists c tl, Py.decimal (S fuel) n [] = c :: tl /\ is_digit_char c.
Proof.
  pose proof (decimal_chars (S fuel) n) as Hall.
  destruct (Py.decimal (S fuel) n []) as [|c tl] eqn:E.
  - exfalso. simpl in E. destruct (n / 10 =? 0); [discriminate|].
    rewrite decimal_acc in E. now destruct (Py.decimal fuel (n / 10) []).
  - exists c, tl. split; [reflexivity|]. now inversion Hall.
Qed.

Lemma decimal_value (fuel : nat) :
  forall n,
    (0 < fuel)%nat ->
    0 <= n < 2 ^ Z.of_nat fuel ->
    exists k, forall a b rest,
      Py.digits a b (Py.decimal fuel n [] ++ rest)
      = Py.digits (a * k + n) true rest.
Proof.
  induction fuel as [|fuel IH]; intros n Hfuel Hn; [lia|].
  simpl Py.decimal.
  pose proof (Z.mod_pos_bound n 10 ltac:(lia)) as Hmod.
  pose proof (Z.div_mod n 10 ltac:(lia)) as Hdiv.
  destruct (Z.eqb_spec (n / 10) 0) as [E|E].
  - exists 10. intros a b rest. cbn [app Py.digits].
    rewrite digit_value_char by exact Hmod. f_equal. lia.
  - assert (Hq : 0 <= n / 10 < 2 ^ Z.of_nat fuel).
    { split; [apply Z.div_pos; lia|].
      apply Z.div_lt_upper_bound; [lia|].
      rewrite Nat2Z.inj_succ, Z.pow_succ_r in Hn by lia.
      pose proof (Z.pow_pos_nonneg 2 (Z.of_nat fuel) ltac:(lia) ltac:(lia)).
      lia. }
    assert (Hpos : (0 < fuel)%nat).
    { destruct fuel; [|lia]. simpl in Hq. lia. }
    destruct (IH (n / 10) Hpos Hq) as [k Hk].
    exists (10 * k). intros a b rest.
    rewrite decimal_acc, <- app_assoc, Hk. cbn [app Py.digits].
    rewrite digit_value_char by exact Hmod. f_equal. lia.
Qed.

Lemma decimal_parses (m : Z) :
  0 <= m ->
  Py.digits 0 false (Py.decimal (S (Z.to_nat (Z.log2 m))) m []) = Some m.
Proof.
  intros Hm.
  destruct (decimal_value (S (Z.to_nat (Z.log2 m))) m ltac:(lia)) as [k Hk].
  - pose proof (Z.log2_nonneg m) as Hlog.
    rewrite Nat2Z.inj_succ, Z2Nat.id by exact Hlog.
    destruct (Z.eq_dec m 0) as [->|Hnz]; [simpl; lia|].
    pose proof (Z.log2_spec m ltac:(lia)). lia.
  - specialize (Hk 0 false []). rewrite app_nil_r in Hk. rewrite Hk.
    simpl. f_equal.
Qed.

Lemma strip_plain (space : ascii -> bool) (cs : list ascii) :
  Forall (fun c => space c = false) cs -> Py.strip space cs = cs.
Proof.
  assert (Hl : forall l, Forall (fun c => space c = false) l ->
                         Py.lstrip space l = l).
  { intros l Hall. destruct Hall as [|c l Hc _]; simpl; [reflexivity|].
    now rewrite Hc. }
  intros Hall. unfold Py.strip.
  rewrite (Hl cs Hall), (Hl (rev cs)) by now apply Forall_rev.
  apply rev_involutive.
Qed.

Lemma int_unsigned (cs : list ascii) (c : ascii) (tl : list ascii) :
  Py.strip Py.is_space cs = c :: tl ->
  c <> "+"%char -> c <> "-"%char ->
  Py.int (string_of_list_ascii cs)
  = match Py.digits 0 false (c :: tl) with
    | Some n => OK n
    | None => Raise (ValueError "invalid literal for int() with base 10")
    end.
Proof.
  intros Hstrip Hplus Hminus. unfold Py.int.
  rewrite list_ascii_of_string_of_list_ascii, Hstrip.
  destruct c as [[] [] [] [] [] [] [] []];
    try reflexivity; congruence.
Qed.

Lemma str_int_chars (n : Z) :
  exists cs,
    Py.str_int n = string_of_list_ascii cs /\
    Forall (fun c => Py.is_space c = false) cs /\
    Forall (fun c => c <> ","%char) cs /\
    Forall (fun c => Py.is_str_space c = false) cs.
Proof.
  unfold Py.str_int.
  pose proof (decimal_chars (S (Z.to_nat (Z.log2 (Z.abs n)))) (Z.abs n)) as Hds.
  eexists. split; [reflexivity|].
  assert (Hboth : Forall (fun c => Py.is_space c = false /\ c <> ","%char)
                    (Py.decimal (S (Z.to_nat (Z.log2 (Z.abs n)))) (Z.abs n) [])).
  { eapply Forall_impl; [|exact Hds]. intros c Hc.
    destruct (digit_char_plain c Hc) as [? [? _]]. now split. }
  apply Forall_and_inv in Hboth. destruct Hboth as [Hsp Hco].
  assert (Hkept : Forall (fun c => Py.is_str_space c = false)
                    (Py.decimal (S (Z.to_nat (Z.log2 (Z.abs n)))) (Z.abs n) [])).
  { eapply Forall_impl; [|exact Hds]. exact digit_char_kept. }
  destruct (n <? 0); repeat split; try assumption;
    constructor; (reflexivity || discriminate || assumption).
Qed.

(** Reading back the text of an integer gives the integer. *)
Lemma int_of_str_int (n : Z) : Py.int (Py.str_int n) = OK n.
Proof.
  destruct (str_int_chars n) as [cs [Hcs [Hsp _]]].
  pose proof (strip_plain Py.is_space cs Hsp) as Hstrip.
  revert Hcs Hstrip. unfold Py.str_int.
  pose proof (decimal_parses (Z.abs n) (Z.abs_nonneg n)) as Hval.
  destruct (decimal_head (Z.to_nat (Z.log2 (Z.abs n))) (Z.abs n))
    as [c [tl [Hds Hc]]].
  rewrite Hds in *.
  destruct (Z.ltb_spec n 0) as [Hneg|Hpos]; intros Hcs Hstrip.
  - apply (f_equal list_ascii_of_string) in Hcs.
    rewrite !list_ascii_of_string_of_list_ascii in Hcs. subst cs.
    unfold Py.int. rewrite list_ascii_of_string_of_list_ascii, Hstrip.
    cbv match. rewrite Hval. simpl. f_equal. lia.
  - apply (f_equal list_ascii_of_string) in Hcs.
    rewrite !list_ascii_of_string_of_list_ascii in Hcs. subst cs.
    destruct (digit_char_plain c Hc) as [_ [_ [Hplus Hminus]]].
    rewrite (int_unsigned _ c tl Hstrip Hplus Hminus), Hval. f_equal. lia.
Qed.

Lemma chars_app (a b : string) :
  list_ascii_of_string (a ++ b)%string
  = list_ascii_of_string a ++ list_ascii_of_string b.
Proof.
  induction a as [|c a IH]; simpl; [reflexivity|]. now rewrite IH.
Qed.

Lemma no_comma_app (a b : string) :
  no_comma a -> no_comma b -> no_comma (a ++ b)%string.
Proof.
  unfold no_comma. intros Ha Hb. rewrite chars_app. apply Forall_app. now split.
Qed.

Lemma no_comma_has_no_separator (s : string) :
  no_comma s -> Py.has_comma_space s = false.
Proof.
  unfold no_comma. induction s as [|c s IH]; simpl; intros Hall; [reflexivity|].
  inversion Hall as [|? ? Hc Hrest]; subst.
  destruct s as [|d s']; [reflexivity|].
  rewrite (IH Hrest), orb_false_r.
  destruct (Ascii.eqb_spec c ","); [contradiction|reflexivity].
Qed.

Lemma str_int_no_comma (n : Z) : no_comma (Py.str_int n).
Proof.
  destruct (str_int_chars n) as [cs [-> [_ [Hco _]]]].
  unfold no_comma. now rewrite list_ascii_of_string_of_list_ascii.
Qed.

Lemma split_without_separator (s : string) :
  Py.has_comma_space s = false -> Py.split_comma_space s = [s].
Proof.
  induction s as [|c s IH]; intros Hno; [reflexivity|].
  simpl in *. destruct s as [|d s']; [reflexivity|].
  apply orb_false_iff in Hno. destruct Hno as [Hcd Hrest].
  rewrite Hcd, (IH Hrest). reflexivity.
Qed.

Lemma split_after_separator (a b : string) :
  Py.has_comma_space a = false ->
  Py.split_comma_space (a ++ ", " ++ b)%string = a :: Py.split_comma_space b.
Proof.
  induction a as [|c a IH]; intros Hno; [reflexivity|].
  destruct a as [|d a'].
  - change (Py.split_comma_space (String c (String "," (String " " b)))
            = [String c ""%string] ++ Py.split_comma_space b).
    cbn [Py.split_comma_space]. rewrite andb_false_r.
    rewrite Ascii.eqb_refl. cbn [andb]. reflexivity.
  - cbn [Py.has_comma_space] in Hno.
    apply orb_false_iff in Hno. destruct Hno as [Hcd Hrest].
    specialize (IH Hrest).
    change (Py.split_comma_space
              (String c (String d (a' ++ ", " ++ b)%string))
            = String c (String d a') :: Py.split_comma_space b).
    change (String d a' ++ ", " ++ b)%string
      with (String d (a' ++ ", " ++ b)%string) in IH.
    cbn [Py.split_comma_space]. cbn [Py.split_comma_space] in IH.
    rewrite Hcd, IH. reflexivity.
Qed.

(** X6: an item written as the book, [", "] and the chapter count in
    decimal is read back as that book and that count, when the book name
    holds no [", "]. *)
Theorem parse_item_of :
  forall (b : string) (n : Z),
    Py.has_comma_space b = false ->
    parse_item (item_of (b, n)) = OK (b, n).
Proof.
  intros b n Hb. unfold parse_item, item_of. cbn [fst snd].
  rewrite (split_after_separator b _ Hb).
  rewrite (split_without_separator _
             (no_comma_has_no_separator _ (str_int_no_comma n))).
  cbn [Py.unpack2 bind]. now rewrite int_of_str_int.
Qed.

Lemma parse_item_of_witness :
  parse_item (item_of ("Song of Solomon", 8)) = OK ("Song of Solomon", 8).
Proof.
  apply (parse_item_of "Song of Solomon" 8). reflexivity.
Defined.

(** X7: an item without [", "] stops the expander with [ValueError], also
    after items that were expanded. *)
Theorem item_without_separator_raises :
  forall (before after : list string) (item : string)
         (readings : list BibleChapter),
    Py.has_comma_space item = false ->
    get_chapter_readings_from_yaml before = OK readings ->
    get_chapter_readings_from_yaml (before ++ item :: after)
    = Raise (ValueError "not enough values to unpack (expected 2)").
Proof.
  intros before after item readings Hitem Hbefore.
  unfold get_chapter_readings_from_yaml in *.
  rewrite readings_loop_app, Hbefore. cbn [bind readings_loop].
  unfold parse_item. now rewrite (split_without_separator item Hitem).
Qed.

Lemma item_without_separator_raises_witness :
  get_chapter_readings_from_yaml (["Jude, 1"] ++ "Ruth,4" :: ["Mark, 16"])
  = Raise (ValueError "not enough values to unpack (expected 2)").
Proof.
  apply (item_without_separator_raises ["Jude, 1"] ["Mark, 16"] "Ruth,4"
           [mkBibleChapter "Jude" 1]); reflexivity.
Defined.

Lemma chapter_is_kept (chapter : Z) :
  Py.int (Py.str_strip (Py.str_int chapter)) = OK chapter.
Proof.
  destruct (str_int_chars chapter) as [cs [Hcs [_ [_ Hkept]]]].
  unfold Py.str_strip. rewrite Hcs at 1.
  rewrite list_ascii_of_string_of_list_ascii,
    (strip_plain Py.is_str_space cs Hkept), <- Hcs.
  apply int_of_str_int.
Qed.

(** X8: the chapter [BibleChapter()] stores, [int(str(chapter).strip())],
    is the integer it was given; the constructor raises only for an empty
    book and for the chapter -1. *)
Theorem constructor_keeps_chapter :
  forall (book : string) (chapter : Z),
    BibleChapter_init_as_written book chapter = BibleChapter_init book chapter /\
    (book <> "" -> chapter <> -1 ->
     BibleChapter_init_as_written book chapter
     = OK (mkBibleChapter book chapter)).
Proof.
  intros book chapter.
  unfold BibleChapter_init_as_written, BibleChapter_init.
  rewrite chapter_is_kept. cbn [bind].
  split; [reflexivity|]. intros Hbook Hchapter.
  destruct (String.eqb_spec book ""); [contradiction|].
  destruct (Z.eqb_spec chapter (-1)); [contradiction|reflexivity].
Qed.

Lemma constructor_keeps_chapter_witness :
  BibleChapter_init_as_written "Psalms" 150 = OK (mkBibleChapter "Psalms" 150).
Proof.
  apply (proj2 (constructor_keeps_chapter "Psalms" 150)); discriminate.
Defined.

Lemma split_of_join (pieces : list string) :
  pieces <> [] ->
  Forall (fun piece => Py.has_comma_space piece = false) pieces ->
  Py.split_comma_space (Py.join_comma_space pieces) = pieces.
Proof.
  induction pieces as [|p pieces IH]; [congruence|]. intros _ Hall.
  inversion Hall as [|? ? Hp Hrest]; subst.
  destruct pieces as [|q more].
  - now apply split_without_separator.
  - change (Py.join_comma_space (p :: q :: more))
      with (p ++ ", " ++ Py.join_comma_space (q :: more))%string.
    rewrite (split_after_separator p _ Hp), IH; [reflexivity|discriminate|exact Hrest].
Qed.

Lemma reading_text_no_comma (r : BibleChapter) :
  no_comma (book r) -> no_comma (BibleChapter_str r).
Proof.
  intros Hbook. unfold BibleChapter_str.
  repeat apply no_comma_app; try assumption; try apply str_int_no_comma;
    repeat constructor; discriminate.
Qed.

(** X9: when no book name holds a comma, splitting a printed line of the
    year at [", "] gives back the day number and the text of each
    reading, one field each. *)
Theorem year_line_fields :
  forall (day : Z) (readings : list BibleChapter),
    Forall (fun r => no_comma (book r)) readings ->
    Py.split_comma_space (year_line_text (day, readings))
    = Py.str_int day :: map BibleChapter_str readings.
Proof.
  intros day readings Hbooks. unfold year_line_text. cbn [fst snd].
  apply split_of_join; [discriminate|].
  constructor.
  - apply no_comma_has_no_separator, str_int_no_comma.
  - apply Forall_map. eapply Forall_impl; [|exact Hbooks].
    intros r Hr. now apply no_comma_has_no_separator, reading_text_no_comma.
Qed.

Lemma year_line_fields_witness :
  Py.split_comma_space
    (year_line_text (1, [mkBibleChapter "Matthew" 1; mkBibleChapter "1 John" 5]))
  = Py.str_int 1
    :: map BibleChapter_str [mkBibleChapter "Matthew" 1; mkBibleChapter "1 John" 5].
Proof.
  apply (year_line_fields 1 [mkBibleChapter "Matthew" 1; mkBibleChapter "1 John" 5]).
  repeat constructor; discriminate.
Defined.

End Text.

(** ** Bookmark: zones, the cycle of the day index, the file *)

Section BookmarkMore.

Import JsonBookmark.

Lemma elapsed_days_split (now : Arrow.t) (b : Dict.t) :
  elapsed_days now b = calendar_days now b + zone_term now.
Proof.
  unfold elapsed_days, calendar_days, zone_term, Arrow.days, Arrow.sub,
    Arrow.instant, Arrow.get. simpl.
  rewrite <- Z.div_add_l by (unfold Arrow.usec_per_day; lia).
  f_equal. lia.
Qed.

(** X10: the days the update computes are the calendar-day difference of
    the two local dates plus a term of the current zone and hour alone,
    which is -1, 0 or 1. *)
Theorem elapsed_days_by_zone :
  forall (now : Arrow.t) (b : Dict.t),
    Arrow.wf now ->
    elapsed_days now b = calendar_days now b + zone_term now /\
    -1 <= zone_term now <= 1.
Proof.
  intros now b [Htime Hzone]. split; [apply elapsed_days_split|].
  unfold zone_term, Arrow.usec_per_day in *. split.
  - apply Z.div_le_lower_bound; lia.
  - apply Z.lt_succ_r, Z.div_lt_upper_bound; lia.
Qed.

Lemma elapsed_days_by_zone_witness :
  elapsed_days (oclock 7 21 (-6)) (Dict.mk 0 (oclock 7 20 (-6)) "ESV")
  = calendar_days (oclock 7 21 (-6)) (Dict.mk 0 (oclock 7 20 (-6)) "ESV")
    + zone_term (oclock 7 21 (-6)) /\
  -1 <= zone_term (oclock 7 21 (-6)) <= 1.
Proof.
  apply (elapsed_days_by_zone (oclock 7 21 (-6))).
  unfold Arrow.wf, Arrow.usec_per_day. simpl. lia.
Defined.

(** X11: at UTC offset 0 and without [--save_settings], the update leaves
    bookmark and file alone on the calendar date of [last_updated] or
    before it, and moves the day index one step on any later date, however
    many days went by. *)
Theorem utc_one_step_per_date :
  forall (self : t) (now : Arrow.t) (disk : Disk),
    Arrow.wf now ->
    Arrow.utcoffset now = 0 ->
    Args.save_settings (args self) = false ->
    (Arrow.date now <= Arrow.date (Dict.last_updated (bookmark self)) ->
     update_bookmark self now disk = (self, disk)) /\
    (Arrow.date (Dict.last_updated (bookmark self)) < Arrow.date now ->
     day_index_number (fst (update_bookmark self now disk))
     = next_day_index (day_index_number self)).
Proof.
  intros self now disk Hwf Hutc Hsave.
  pose proof (elapsed_days_utc now (bookmark self) Hwf Hutc) as Hdays.
  unfold calendar_days in Hdays. split; intros Hdate.
  - apply update_idle; [exact Hsave|lia].
  - apply update_advances. lia.
Qed.

Lemma utc_one_step_per_date_witness :
  update_bookmark (mk plain_args (Dict.mk 41 (noon 7 0) "ESV"))
    (oclock 7 23 0) (disk_with 41 (noon 7 0) "ESV")
  = (mk plain_args (Dict.mk 41 (noon 7 0) "ESV"), disk_with 41 (noon 7 0) "ESV") /\
  day_index_number
    (fst (update_bookmark (mk plain_args (Dict.mk 41 (noon 7 0) "ESV"))
            (oclock 12 1 0) (disk_with 41 (noon 7 0) "ESV")))
  = next_day_index 41.
Proof.
  split.
  - apply (proj1 (utc_one_step_per_date
                    (mk plain_args (Dict.mk 41 (noon 7 0) "ESV"))
                    (oclock 7 23 0) (disk_with 41 (noon 7 0) "ESV")
                    ltac:(unfold Arrow.wf, Arrow.usec_per_day; simpl; lia)
                    eq_refl eq_refl)).
    simpl. lia.
  - apply (proj2 (utc_one_step_per_date
                    (mk plain_args (Dict.mk 41 (noon 7 0) "ESV"))
                    (oclock 12 1 0) (disk_with 41 (noon 7 0) "ESV")
                    ltac:(unfold Arrow.wf, Arrow.usec_per_day; simpl; lia)
                    eq_refl eq_refl)).
    simpl. lia.
Defined.

(** X12: in a zone west of UTC, once the local time is past midnight UTC,
    an update on the calendar date of [last_updated] moves the day index,
    and doing it again at the same moment moves it again. *)
Theorem west_of_utc_moves_twice :
  forall (self : t) (now : Arrow.t) (disk : Disk),
    Arrow.wf now ->
    Arrow.usec_per_day <= Arrow.time_of_day now - Arrow.utcoffset now ->
    Arrow.date (Dict.last_updated (bookmark self)) = Arrow.date now ->
    let once := update_bookmark self now disk in
    let twice := update_bookmark (fst once) now (snd once) in
    day_index_number (fst once) = next_day_index (day_index_number self) /\
    day_index_number (fst twice) = next_day_index (day_index_number (fst once)).
Proof.
  intros self now disk Hwf Hlate Hdate.
  assert (Hterm : zone_term now = 1).
  { destruct (elapsed_days_by_zone now (bookmark self) Hwf) as [_ Hb].
    assert (1 <= zone_term now); [|lia].
    unfold zone_term. apply Z.div_le_lower_bound;
      unfold Arrow.usec_per_day in *; lia. }
  assert (Hfirst : 0 < elapsed_days now (bookmark self)).
  { rewrite elapsed_days_split. unfold calendar_days. lia. }
  destruct (update_advances self now disk Hfirst) as [Hidx [Hlast _]].
  cbv zeta. split; [exact Hidx|].
  apply update_advances.
  rewrite elapsed_days_split. unfold calendar_days. rewrite Hlast. lia.
Qed.

Lemma west_of_utc_moves_twice_witness :
  let self := mk plain_args (Dict.mk 41 (oclock 7 20 (-6)) "ESV") in
  let once := update_bookmark self (oclock 7 21 (-6))
                (disk_with 41 (oclock 7 20 (-6)) "ESV") in
  let twice := update_bookmark (fst once) (oclock 7 21 (-6)) (snd once) in
  day_index_number (fst once) = next_day_index 41 /\
  day_index_number (fst twice) = next_day_index (day_index_number (fst once)).
Proof.
  apply (west_of_utc_moves_twice
           (mk plain_args (Dict.mk 41 (oclock 7 20 (-6)) "ESV"))
           (oclock 7 21 (-6)) (disk_with 41 (oclock 7 20 (-6)) "ESV")).
  - unfold Arrow.wf, Arrow.usec_per_day. simpl. lia.
  - unfold Arrow.usec_per_day. simpl. lia.
  - reflexivity.
Defined.

Lemma invoke_found (i : Invocation) (saved : Dict.t) (written : list Dict.t) :
  invoke i (mkDisk (Some saved) written)
  = OK (snd (update_bookmark (mk (inv_args i) saved) (now_update i)
               (mkDisk (Some saved) written))).
Proof.
  unfold invoke, init. simpl.
  now destruct (update_bookmark _ _ _).
Qed.

Lemma next_day_index_mod (i n : Z) :
  0 <= i <= 365 -> 0 <= n ->
  (next_day_index i + n) mod 366 = (i + (n + 1)) mod 366.
Proof.
  intros Hi Hn. unfold next_day_index.
  destruct (Z.ltb_spec i 365) as [H|H]; [f_equal; lia|].
  replace i with 365 by lia.
  replace (365 + (n + 1)) with (n + 1 * 366) by lia.
  now rewrite Z.mod_add by lia.
Qed.

Lemma next_day_index_range (i : Z) :
  0 <= i <= 365 -> 0 <= next_day_index i <= 365.
Proof.
  intros Hi. unfold next_day_index. destruct (Z.ltb_spec i 365); lia.
Qed.

(** X13: from a stored day index within 0..365, runs that each see a new
    day all succeed and leave the day index at the sum of the index and the
    number of runs, modulo 366: the index cycles through 366 values. *)
Theorem day_index_cycles_through_366 :
  forall (runs : list Invocation) (saved : Dict.t) (written : list Dict.t),
    0 <= Dict.day_index_number saved <= 365 ->
    each_a_new_day (Dict.last_updated saved) runs ->
    exists disk',
      invocations runs (mkDisk (Some saved) written) = OK disk' /\
      stored_day_index disk'
      = Some ((Dict.day_index_number saved + Z.of_nat (List.length runs))
              mod 366).
Proof.
  induction runs as [|i runs IH]; intros saved written Hrange Hchain.
  - eexists. split; [reflexivity|]. unfold stored_day_index. simpl.
    f_equal. rewrite Z.add_0_r. symmetry. apply Z.mod_small. lia.
  - destruct Hchain as [Hnew Hchain].
    cbn [invocations]. rewrite invoke_found. cbn [bind].
    set (self := mk (inv_args i) saved).
    set (disk := mkDisk (Some saved) written).
    destruct (update_advances self (now_update i) disk Hnew)
      as [Hidx [Hlast Hdisk]].
    rewrite Hdisk. unfold json_dump.
    set (b := bookmark (fst (update_bookmark self (now_update i) disk))) in *.
    destruct (IH b (b :: dumps disk)) as [disk' [Hrun Hstored]].
    + change (Dict.day_index_number b)
        with (day_index_number (fst (update_bookmark self (now_update i) disk))).
      rewrite Hidx. now apply next_day_index_range.
    + now rewrite Hlast.
    + exists disk'. split; [exact Hrun|]. rewrite Hstored. f_equal.
      change (Dict.day_index_number b)
        with (day_index_number (fst (update_bookmark self (now_update i) disk))).
      rewrite Hidx. change (day_index_number self) with (Dict.day_index_number saved).
      fold (next_day_index (Dict.day_index_number saved)).
      rewrite next_day_index_mod by lia. f_equal.
      change (List.length (i :: runs)) with (S (List.length runs)). lia.
Qed.

Lemma day_index_cycles_through_366_witness :
  exists disk',
    invocations (daily_runs 0 3) (disk_with 364 (noon 0 0) "ESV") = OK disk' /\
    stored_day_index disk'
    = Some ((364 + Z.of_nat (List.length (daily_runs 0 3))) mod 366).
Proof.
  apply (day_index_cycles_through_366 (daily_runs 0 3)
           (Dict.mk 364 (noon 0 0) "ESV") []).
  - simpl. lia.
  - repeat split.
Defined.

(** X14: when the store starts without raising, the bookmark it holds is
    the content of the file, and the arguments are the ones given. *)
Theorem store_agrees_with_file :
  forall (a : Args.t) (now_create now_update : Arrow.t) (disk disk' : Disk)
         (self : t),
    init a now_create now_update disk = OK (self, disk') ->
    bookmark_file disk' = Some (bookmark self) /\ args self = a.
Proof.
  intros a now_create now_update disk disk' self Hinit.
  assert (Hupd : forall s d,
            bookmark_file d = Some (bookmark s) ->
            bookmark_file (snd (update_bookmark s now_update d))
            = Some (bookmark (fst (update_bookmark s now_update d))) /\
            args (fst (update_bookmark s now_update d)) = args s).
  { intros s d Hd. unfold update_bookmark.
    destruct (Args.save_settings (args s) || _)%bool; simpl; now split. }
  unfold init in Hinit. destruct (bookmark_file disk) as [saved|] eqn:Hfile.
  - cbn [bind] in Hinit. rewrite Hfile in Hinit.
    destruct (Hupd (mk a saved) disk Hfile) as [Hf Ha].
    injection Hinit as Hpair.
    apply (f_equal fst) in Hpair as Hs. apply (f_equal snd) in Hpair as Hd.
    cbn [fst snd] in Hs, Hd. subst. now split.
  - unfold create_bookmark in Hinit.
    destruct (String.eqb (Args.translation a) ""); [discriminate|].
    cbn [bind json_dump bookmark_file] in Hinit.
    set (created := Dict.mk 0 now_create (Args.translation a)) in *.
    destruct (Hupd (mk a created)
                (mkDisk (Some created) (created :: dumps disk)) eq_refl)
      as [Hf Ha].
    injection Hinit as Hpair.
    apply (f_equal fst) in Hpair as Hs. apply (f_equal snd) in Hpair as Hd.
    cbn [fst snd] in Hs, Hd. subst. now split.
Qed.

Lemma store_agrees_with_file_witness :
  bookmark_file (json_dump (Dict.mk 42 (noon 8 0) "ESV")
                   (disk_with 41 (noon 7 0) "ESV"))
  = Some (bookmark (mk plain_args (Dict.mk 42 (noon 8 0) "ESV"))) /\
  args (mk plain_args (Dict.mk 42 (noon 8 0) "ESV")) = plain_args.
Proof.
  apply (store_agrees_with_file plain_args (noon 8 0) (noon 8 0)
           (disk_with 41 (noon 7 0) "ESV")).
  reflexivity.
Defined.

End BookmarkMore.

(** ** The two modes: translation of a run, chapters of a year *)

Section Modes.

(** X15: without [--save_settings] and with a bookmark file, the
    translation daily mode prints is the one asked for when there is one,
    the stored one otherwise, and the stored translation stays as it
    was. *)
Theorem translation_of_a_run :
  forall all_chapter_lists a now_create now_update disk saved today disk',
    bookmark_file disk = Some saved ->
    Args.save_settings a = false ->
    todays_readings all_chapter_lists a now_create now_update disk
    = OK (today, disk') ->
    translation_line today
    = (if String.eqb (Args.translation a) ""
       then Dict.translation saved
       else Args.translation a) /\
    option_map Dict.translation (bookmark_file disk')
    = Some (Dict.translation saved).
Proof.
  intros all_chapter_lists a now_create now_update disk saved today disk'
         Hfile Hsave Hrun.
  unfold todays_readings, JsonBookmark.init in Hrun.
  rewrite Hfile in Hrun. cbn [bind] in Hrun. rewrite Hfile in Hrun.
  assert (Hkeep :
    JsonBookmark.translation
      (fst (JsonBookmark.update_bookmark (JsonBookmark.mk a saved) now_update disk))
    = Dict.translation saved /\
    option_map Dict.translation
      (bookmark_file
         (snd (JsonBookmark.update_bookmark (JsonBookmark.mk a saved)
                 now_update disk)))
    = Some (Dict.translation saved)).
  { unfold JsonBookmark.update_bookmark, JsonBookmark.translation,
      JsonBookmark.day_index_number. cbn [JsonBookmark.args JsonBookmark.bookmark].
    rewrite Hsave. cbn [orb].
    destruct (0 <? _); [|cbn; rewrite Hfile; now split].
    destruct (Dict.day_index_number saved <? 365); cbn; now split. }
  destruct (JsonBookmark.update_bookmark (JsonBookmark.mk a saved) now_update disk)
    as [self d].
  cbn [fst snd] in Hkeep. destruct Hkeep as [Htr Hstored].
  cbn [bind] in Hrun.
  destruct (readings_for all_chapter_lists (JsonBookmark.day_index_number self));
    [|discriminate].
  cbn [bind] in Hrun. injection Hrun as <- <-. cbn [translation_line].
  split; [|exact Hstored]. rewrite Htr.
  destruct (String.eqb_spec (Args.translation a) ""); cbn [negb andb];
    [reflexivity|].
  destruct (String.eqb_spec (Args.translation a) (Dict.translation saved));
    cbn [negb]; congruence.
Qed.

Lemma translation_of_a_run_witness :
  exists today disk',
    todays_readings sample_set (Args.mk true false "KJV" false)
      (noon 8 0) (noon 8 0) (disk_with 41 (noon 7 0) "ESV")
    = OK (today, disk') /\
    translation_line today = "KJV" /\
    option_map Dict.translation (bookmark_file disk') = Some "ESV".
Proof.
  eexists. eexists. split; [vm_compute; reflexivity|].
  apply (translation_of_a_run sample_set (Args.mk true false "KJV" false)
           (noon 8 0) (noon 8 0) (disk_with 41 (noon 7 0) "ESV")
           (Dict.mk 41 (noon 7 0) "ESV")); reflexivity.
Defined.

(** X16: on ten non-empty sequences, every reading of a sequence of at
    most 365 chapters is on some line of the year, at the place of its
    sequence. *)
Theorem year_reads_every_chapter :
  forall (all_chapter_lists : list (list BibleChapter)) (k : nat)
         (sequence : list BibleChapter) (r : BibleChapter),
    book_set all_chapter_lists ->
    nth_error all_chapter_lists k = Some sequence ->
    Py.len sequence <= 365 ->
    In r sequence ->
    exists lines day readings,
      year_of_readings all_chapter_lists = OK lines /\
      In (day, readings) lines /\
      nth_error readings k = Some r.
Proof.
  intros all_chapter_lists k sequence r Hset Hk Hlen Hin.
  apply In_nth_error in Hin. destruct Hin as [j Hj].
  assert (Hlt : (j < List.length sequence)%nat).
  { apply nth_error_Some. congruence. }
  unfold Py.len in Hlen.
  destruct (for_each_total (year_line all_chapter_lists) (Py.range 0 365))
    as [lines [Hlines [_ Hnth]]].
  { intros i _. unfold year_line.
    destruct (readings_for_cycles all_chapter_lists Hset i) as [rs [-> _]].
    simpl. eauto. }
  destruct (Hnth j (Z.of_nat j)) as [[day readings] [Hline Hn]].
  { rewrite <- (Nat2Z.id j) at 1. rewrite range_nth by lia. f_equal. }
  unfold year_line in Hline.
  destruct (readings_for_cycles all_chapter_lists Hset (Z.of_nat j))
    as [rs [Hrs [_ Hc]]].
  rewrite Hrs in Hline. cbn [bind] in Hline. injection Hline as <- <-.
  destruct (Hc k sequence Hk) as [_ [r' [Hr' Hk']]].
  unfold Py.len in Hr'.
  rewrite Z.mod_small, Nat2Z.id, Hj in Hr' by lia. injection Hr' as <-.
  exists lines, (Z.of_nat j + 1), rs.
  split; [exact Hlines|split; [|exact Hk']].
  eapply nth_error_In, Hn.
Qed.

Lemma year_reads_every_chapter_witness :
  exists lines day readings,
    year_of_readings sample_set = OK lines /\
    In (day, readings) lines /\
    nth_error readings 1 = Some (mkBibleChapter "Ruth" 3).
Proof.
  apply (year_reads_every_chapter sample_set 1
           [mkBibleChapter "Ruth" 1; mkBibleChapter "Ruth" 2;
            mkBibleChapter "Ruth" 3; mkBibleChapter "Ruth" 4]).
  - split; [reflexivity|]. repeat (constructor; [discriminate|]). constructor.
  - reflexivity.
  - unfold Py.len. simpl. lia.
  - right. right. left. reflexivity.
Defined.

End Modes.
